(** * Todo application: models, forms and views

    A shallow embedding of [todos/models.py], [todos/forms.py] and
    [todos/views.py], and the properties of the task handlers: owner
    scoping, the owner invariant, form validation, the derived queries
    [is_overdue] and [days_until_due], toggling, deletion and the list
    statistics.

    Conventions.
    - A Python [str] is a [string] whose characters are the code points
      U+0000..U+00FF.
    - A [datetime.date] is its proleptic Gregorian ordinal
      ([date.toordinal()]): comparison of dates is comparison of
      ordinals, and [(d1 - d2).days] is their difference.
    - The table of [Todo] rows is a finite map from the primary key to
      the other columns; a [QuerySet] is such a map too, and
      [QuerySet.filter] is [filter] on it.  The order of a query set
      ([Meta.ordering]) is not modelled.
    - A raised exception is the left injection of [result].
    - The framework is Django 4.0 or later, on Python 3.11 or later: a
      POST to the delete URL is answered by [BaseDeleteView.post], and
      [int()] refuses numerals of more than 4300 digits.  The view's own
      [delete], which answered a POST before Django 4.0, is modelled as
      well. *)

From Stdlib Require Import ZArith String Ascii List Bool Lia DecimalString DecimalPos.
From stdpp Require Import base option gmap strings list fin_maps.

Local Open Scope string_scope.
Local Open Scope Z_scope.

(** ** Python values *)

Module Py.

(** [str.isspace] on one character: the ASCII table of CPython
    (TAB..CR, FS..US, SPACE) and the two Latin-1 white spaces NEL and
    NBSP. *)
Definition isspace (c : ascii) : bool :=
  let n := nat_of_ascii c in
  ((9 <=? n) && (n <=? 13) || (28 <=? n) && (n <=? 32)
   || (n =? 133) || (n =? 160))%nat.

Fixpoint lstrip (s : string) : string :=
  match s with
  | EmptyString => EmptyString
  | String c s' => if isspace c then lstrip s' else s
  end.

Fixpoint rstrip (s : string) : string :=
  match s with
  | EmptyString => EmptyString
  | String c s' =>
      match rstrip s' with
      | EmptyString => if isspace c then EmptyString else String c EmptyString
      | r => String c r
      end
  end.

(** [s.strip()] *)
Definition strip (s : string) : string := rstrip (lstrip s).

(** [len(s)] *)
Definition len (s : string) : Z := Z.of_nat (String.length s).

(** Truth value of a [str]: non-empty. *)
Definition truthy (s : string) : bool :=
  match s with EmptyString => false | _ => true end.

(** Characters with the Unicode property Numeric_Type=Decimal: the
    ten ASCII digits. *)
Definition is_decimal_char (c : ascii) : bool :=
  let n := nat_of_ascii c in ((48 <=? n) && (n <=? 57))%nat.

(** Characters with Numeric_Type=Digit or Decimal: the ASCII digits
    and the superscripts U+00B2, U+00B3, U+00B9. *)
Definition is_digit_char (c : ascii) : bool :=
  let n := nat_of_ascii c in
  (is_decimal_char c || (n =? 178) || (n =? 179) || (n =? 185))%nat.

Fixpoint all_chars (p : ascii -> bool) (s : string) : bool :=
  match s with
  | EmptyString => true
  | String c s' => p c && all_chars p s'
  end.

(** [s.isdigit()]: at least one character, and all of them digits. *)
Definition isdigit (s : string) : bool := truthy s && all_chars is_digit_char s.

(** [s.isdecimal()] *)
Definition isdecimal (s : string) : bool := truthy s && all_chars is_decimal_char s.

(** ['\x00' in s] *)
Fixpoint has_null (s : string) : bool :=
  match s with
  | EmptyString => false
  | String c s' => (nat_of_ascii c =? 0)%nat || has_null s'
  end.

(** The number of decimal characters the string begins with. *)
Fixpoint decimal_prefix (s : string) : nat :=
  match s with
  | EmptyString => O
  | String c s' => if is_decimal_char c then S (decimal_prefix s') else O
  end.

Fixpoint digits_value (acc : Z) (s : string) : Z :=
  match s with
  | EmptyString => acc
  | String c s' => digits_value (10 * acc + (Z.of_nat (nat_of_ascii c) - 48)) s'
  end.

End Py.

(** ** More Python values *)

Module PyStr.

(** [str.lower] on one character: the ASCII capitals and the capitals of
    Latin-1 (U+00C0..U+00DE without the multiplication sign U+00D7) move
    up by 32; every other character stays. *)
Definition lower_char (c : ascii) : ascii :=
  let n := nat_of_ascii c in
  if ((65 <=? n) && (n <=? 90)
      || (192 <=? n) && (n <=? 222) && negb (n =? 215))%nat
  then ascii_of_nat (n + 32)
  else c.

(** [s.lower()] *)
Fixpoint lower (s : string) : string :=
  match s with
  | EmptyString => EmptyString
  | String c s' => String (lower_char c) (lower s')
  end.

(** [s.split(sep)] for a separator of one character: the pieces between
    the separators, at least one piece. *)
Fixpoint split (sep : ascii) (s : string) : list string :=
  match s with
  | EmptyString => [EmptyString]
  | String c s' =>
      if Ascii.eqb c sep then EmptyString :: split sep s'
      else match split sep s' with
           | piece :: pieces => String c piece :: pieces
           | [] => [String c EmptyString]
           end
  end.

(** [l[-1]] of a list of strings that is not empty. *)
Definition last_item (l : list string) : string := List.last l EmptyString.

(** [sep.join(l)] *)
Fixpoint join (sep : string) (l : list string) : string :=
  match l with
  | [] => EmptyString
  | [s] => s
  | s :: rest => s +:+ sep +:+ join sep rest
  end.

(** [str(n)] and the formatting of an [int] in an f-string: the decimal
    numeral, with a minus sign for a negative number. *)
Definition str_of_int (n : Z) : string := NilZero.string_of_int (Z.to_int n).

End PyStr.

(** ** Exceptions and results *)

Inductive exn : Type :=
| ValidationError (message : string)
| ValueError (message : string)
| Http404
| DoesNotExist.

Definition result (A : Type) : Type := (exn + A)%type.

Definition raise {A : Type} (e : exn) : result A := inl e.
Definition ret {A : Type} (a : A) : result A := inr a.

Definition bind {A B : Type} (c : result A) (k : A -> result B) : result B :=
  match c with
  | inl e => inl e
  | inr a => k a
  end.

Notation "'let*' x ':=' c 'in' k" := (bind c (fun x => k))
  (at level 10, x name, c at level 200, k at level 200).

(** The limit of [int()] on the digits of a numeral
    ([sys.int_info.default_max_str_digits]). *)
Definition int_max_str_digits : Z := 4300.

Definition msg_int_limit (digits : Z) : string :=
  "Exceeds the limit (" +:+ PyStr.str_of_int int_max_str_digits
  +:+ " digits) for integer string conversion: value has "
  +:+ PyStr.str_of_int digits
  +:+ " digits; use sys.set_int_max_str_digits() to increase the limit".

(** [repr(s)] of a [str] of digits, and the message of an invalid literal,
    which shows the first 200 characters of it. *)
Definition msg_invalid_literal (s : string) : string :=
  "invalid literal for int() with base 10: "
  +:+ String.substring 0 200 ("'" +:+ s +:+ "'").

(** [int(s)] for a [str] of digits in the sense of [isdigit], the only
    strings that reach [int()] in [views.py]; signs, underscores and white
    space around the numeral, which [int()] accepts as well, do not occur in
    them.  The numeral is read up to the first character that is no decimal
    digit; more than 4300 digits up to there are refused; a numeral of
    decimal digits only has its value; the superscript digits are no decimal
    characters and make the literal invalid. *)
Definition py_int (s : string) : result Z :=
  let digits := Z.of_nat (Py.decimal_prefix s) in
  if int_max_str_digits <? digits then raise (ValueError (msg_int_limit digits))
  else if Py.isdecimal s then ret (Py.digits_value 0 s)
  else raise (ValueError (msg_invalid_literal s)).

(** ** Dates and times *)

Definition date : Type := Z.

Record datetime : Type := mk_datetime {
  dt_date : date;          (* [.date()] *)
  dt_seconds : Z           (* time of day *)
}.

(** ** models.py *)

Definition user_id : Type := Z.

(** The columns of a [Todo] other than the primary key. *)
Record TodoFields : Type := mk_fields {
  user : option user_id;         (* ForeignKey(User, null=True) *)
  title : string;                (* CharField(max_length=200) *)
  description : option string;   (* TextField(blank=True, null=True) *)
  completed : bool;              (* BooleanField(default=False) *)
  priority : Z;                  (* IntegerField(choices=1..5, default=3) *)
  due_date : option date;        (* DateField(blank=True, null=True) *)
  created_at : option datetime;  (* DateTimeField(auto_now_add=True) *)
  updated_at : option datetime   (* DateTimeField(auto_now=True) *)
}.

(** A model instance: the primary key ([None] before the first save)
    and the columns. *)
Record Todo : Type := mk_todo {
  pk : option Z;
  fields :> TodoFields
}.

Definition title_max_length : Z := 200.
Definition PRIORITY_CHOICES : list Z := [1; 2; 3; 4; 5].

Definition set_completed (b : bool) (f : TodoFields) : TodoFields :=
  mk_fields (user f) (title f) (description f) b (priority f)
            (due_date f) (created_at f) (updated_at f).

Definition set_user (u : option user_id) (f : TodoFields) : TodoFields :=
  mk_fields u (title f) (description f) (completed f) (priority f)
            (due_date f) (created_at f) (updated_at f).

Definition set_created_at (t : option datetime) (f : TodoFields) : TodoFields :=
  mk_fields (user f) (title f) (description f) (completed f) (priority f)
            (due_date f) t (updated_at f).

Definition set_updated_at (t : option datetime) (f : TodoFields) : TodoFields :=
  mk_fields (user f) (title f) (description f) (completed f) (priority f)
            (due_date f) (created_at f) t.

(** [Todo()] before any field is assigned: the field defaults. *)
Definition Todo_new : Todo :=
  mk_todo None (mk_fields None EmptyString None false 3 None None None).

(** [Todo.is_overdue]; [today] is [timezone.now().date()].  A date is
    always true as a condition, so [self.due_date and ...] tests that the
    date is set. *)
Definition is_overdue (self : TodoFields) (today : date) : bool :=
  match due_date self with
  | Some d => if negb (completed self) then d <? today else false
  | None => false
  end.

(** [Todo.days_until_due] *)
Definition days_until_due (self : TodoFields) (today : date) : option Z :=
  match due_date self with
  | Some d => Some (d - today)
  | None => None
  end.

(** The table and its key sequence. *)
Record DB : Type := mk_db {
  todos : gmap Z TodoFields;
  next_id : Z
}.

Definition empty_db : DB := mk_db ∅ 1.

(** [models.Model.save]: an instance without key is inserted under the
    next key of the sequence; an instance with a key updates its row, or is
    inserted under that key when there is no such row.  [auto_now_add]
    stamps [created_at] on insertion, [auto_now] stamps [updated_at] on
    every save. *)
Definition Model_save (self : Todo) (now : datetime) (db : DB) : Todo * DB :=
  match pk self with
  | None =>
      let k := next_id db in
      let f := set_updated_at (Some now) (set_created_at (Some now) (fields self)) in
      (mk_todo (Some k) f, mk_db (<[k := f]> (todos db)) (k + 1))
  | Some k =>
      let f :=
        match todos db !! k with
        | Some _ => set_updated_at (Some now) (fields self)
        | None => set_updated_at (Some now) (set_created_at (Some now) (fields self))
        end in
      (mk_todo (Some k) f, mk_db (<[k := f]> (todos db)) (next_id db))
  end.

(** [not self.pk]: the key is [None] or zero. *)
Definition pk_falsy (p : option Z) : bool :=
  match p with
  | None => true
  | Some k => k =? 0
  end.

(** [Todo.save] *)
Definition Todo_save (self : Todo) (now : datetime) (db : DB) : result (Todo * DB) :=
  if pk_falsy (pk self) && negb (bool_decide (is_Some (user self)))
  then raise (ValueError "Todo must have a user")
  else ret (Model_save self now db).

(** [models.Model.delete]: an instance that was never saved cannot be
    deleted. *)
Definition Model_delete (self : Todo) (db : DB) : result DB :=
  match pk self with
  | Some k => ret (mk_db (delete k (todos db)) (next_id db))
  | None => raise (ValueError "Todo object can't be deleted because its id attribute is set to None.")
  end.

(** ** forms.py *)

(** The values submitted for the fields of [TodoForm]
    ([Meta.fields = title, description, priority, due_date]): the two texts
    as they were sent ([None] for a description that was not sent), the
    priority and the due date as the integer and the date they denote.
    [cleaned_data] has the same shape. *)
Record TodoFormData : Type := mk_form_data {
  data_title : string;
  data_description : option string;
  data_priority : Z;
  data_due_date : option date
}.

Definition msg_due_date_past : string := "Due date cannot be in the past.".
Definition msg_title_short : string := "Title must be atleast 3 characters long.".

(** The messages of the form fields themselves. *)
Definition msg_required : string := "This field is required.".

Definition msg_max_length (limit length : Z) : string :=
  "Ensure this value has at most " +:+ PyStr.str_of_int limit
  +:+ " characters (it has " +:+ PyStr.str_of_int length +:+ ").".

Definition msg_null_characters : string := "Null characters are not allowed.".

Definition msg_invalid_choice (value : Z) : string :=
  "Select a valid choice. " +:+ PyStr.str_of_int value
  +:+ " is not one of the available choices.".

(** [TodoForm.clean_due_date]; [today] is [timezone.now().date()]. *)
Definition clean_due_date (due_date : option date) (today : date) : result (option date) :=
  match due_date with
  | Some d =>
      if d <? today
      then raise (ValidationError msg_due_date_past)
      else ret due_date
  | None => ret due_date
  end.

(** [TodoForm.clean_title] *)
Definition clean_title (title : string) : result string :=
  let title := Py.strip title in
  if Py.len title <? 3
  then raise (ValidationError msg_title_short)
  else ret title.

(** The validators of a [forms.CharField]: the maximal length, when the
    field has one, and the refusal of null characters.  All of them are run
    and their errors collected. *)
Definition char_field_validators (max_length : option Z) (value : string) : list exn :=
  (match max_length with
   | Some limit =>
       if limit <? Py.len value
       then [ValidationError (msg_max_length limit (Py.len value))]
       else []
   | None => []
   end
   ++ if Py.has_null value then [ValidationError msg_null_characters] else [])%list.

(** The form field of [title], derived from the model field
    ([CharField(max_length=200)], not blank): the value is stripped, must
    not be empty, and is run through the validators. *)
Definition title_field_clean (value : string) : list exn + string :=
  let value := Py.strip value in
  if negb (Py.truthy value)
  then inl [ValidationError msg_required]
  else match char_field_validators (Some title_max_length) value with
       | [] => inr value
       | errors => inl errors
       end.

(** The form field of [description], derived from the model field
    ([TextField(blank=True, null=True)]): a value that is absent counts as
    empty, the value is stripped, an empty value is accepted as the empty
    string, any other is run through the validators. *)
Definition description_field_clean (value : option string) : list exn + string :=
  let value := Py.strip (default EmptyString value) in
  if negb (Py.truthy value)
  then inr EmptyString
  else match char_field_validators None value with
       | [] => inr value
       | errors => inl errors
       end.

(** The form field of [priority], derived from [PRIORITY_CHOICES]. *)
Definition priority_field_clean (value : Z) : result Z :=
  if bool_decide (value ∈ PRIORITY_CHOICES)
  then ret value
  else raise (ValidationError (msg_invalid_choice value)).

Definition field_errors {A : Type} (name : string) (r : result A) : list (string * exn) :=
  match r with
  | inl e => [(name, e)]
  | inr _ => []
  end.

Definition field_error_list {A : Type} (name : string) (r : list exn + A)
  : list (string * exn) :=
  match r with
  | inl errors => map (pair name) errors
  | inr _ => []
  end.

(** The cleaning of [title]: the field, then [clean_title] on the value the
    field has cleaned. *)
Definition TodoForm_clean_title_field (value : string) : list exn + string :=
  match title_field_clean value with
  | inl errors => inl errors
  | inr v => match clean_title v with
             | inl e => inl [e]
             | inr t => inr t
             end
  end.

(** [form.is_valid()]: every field is cleaned (the field itself, then its
    [clean_<name>] hook on the cleaned value), the errors are collected
    per field, and the form is valid when there is none.  On success the
    result is [cleaned_data]. *)
Definition TodoForm_clean (data : TodoFormData) (today : date)
  : list (string * exn) + TodoFormData :=
  let t := TodoForm_clean_title_field (data_title data) in
  let c := description_field_clean (data_description data) in
  let p := priority_field_clean (data_priority data) in
  let d := clean_due_date (data_due_date data) today in
  match t, c, p, d with
  | inr t', inr c', inr p', inr d' => inr (mk_form_data t' (Some c') p' d')
  | _, _, _, _ => inl (field_error_list "title" t ++ field_error_list "description" c
                       ++ field_errors "priority" p ++ field_errors "due_date" d)%list
  end.

(** [form.save(commit=False)]: the cleaned values of the form's fields are
    assigned to the instance; no other attribute is touched. *)
Definition construct_instance (cleaned : TodoFormData) (instance : Todo) : Todo :=
  mk_todo (pk instance)
    (mk_fields (user instance) (data_title cleaned) (data_description cleaned)
               (completed instance) (data_priority cleaned) (data_due_date cleaned)
               (created_at instance) (updated_at instance)).

(** ** views.py *)

Inductive level : Type := INFO | SUCCESS | ERROR.

Record message : Type := mk_message {
  msg_level : level;
  msg_text : string
}.

Record ListContext : Type := mk_list_context {
  ctx_todos : gmap Z TodoFields;
  total_count : nat;
  active_count : nat;
  completed_count : nat;
  overdue_count : nat;
  current_filter : string;
  priority_filter : string
}.

Inductive response : Type :=
| Redirect (to : string)
| RenderList (context : ListContext)
| RenderForm (errors : list (string * exn))
| RenderConfirmDelete (todo : Todo).

(** What a request leaves behind: the table, the flash messages it added,
    and the response, or the exception that escaped the view. *)
Record outcome : Type := mk_outcome {
  out_db : DB;
  out_messages : list message;
  out_response : result response
}.

Definition owned_by (u : user_id) (kr : Z * TodoFields) : Prop := user kr.2 = Some u.

Definition is_completed (b : bool) (kr : Z * TodoFields) : Prop := completed kr.2 = b.

Definition has_priority (p : Z) (kr : Z * TodoFields) : Prop := priority kr.2 = p.

Global Instance owned_by_dec u kr : Decision (owned_by u kr).
Proof. unfold owned_by. apply _. Defined.

Global Instance is_completed_dec b kr : Decision (is_completed b kr).
Proof. unfold is_completed. apply _. Defined.

Global Instance has_priority_dec p kr : Decision (has_priority p kr).
Proof. unfold has_priority. apply _. Defined.

(** [Todo.objects.filter(user=request.user)], the [get_queryset] of the
    list, update and delete views. *)
Definition get_queryset (request_user : user_id) (db : DB) : gmap Z TodoFields :=
  filter (owned_by request_user) (todos db).

(** [queryset.filter(pk=pk).get()] *)
Definition QuerySet_get (queryset : gmap Z TodoFields) (k : Z) : result Todo :=
  match queryset !! k with
  | Some f => ret (mk_todo (Some k) f)
  | None => raise DoesNotExist
  end.

(** [SingleObjectMixin.get_object]: a missing row is reported as
    [Http404]. *)
Definition get_object (queryset : gmap Z TodoFields) (k : Z) : result Todo :=
  match QuerySet_get queryset k with
  | inl DoesNotExist => raise Http404
  | r => r
  end.

(** [get_object_or_404(Todo, pk=pk, user=request.user)] *)
Definition get_object_or_404 (db : DB) (k : Z) (request_user : user_id) : result Todo :=
  match QuerySet_get (filter (owned_by request_user) (todos db)) k with
  | inl DoesNotExist => raise Http404
  | r => r
  end.

(** [sum(1 for todo in user_todos if todo.is_overdue())] *)
Definition count_overdue (user_todos : gmap Z TodoFields) (today : date) : nat :=
  sum_list (map (fun _ => 1%nat)
              (List.filter (fun kr : Z * TodoFields => is_overdue kr.2 today)
                           (map_to_list user_todos))).

(** [TodoListView.get_context_data]; the two arguments [GET_status] and
    [GET_priority] are the query parameters, [None] when absent. *)
Definition get_context_data (now : datetime) (request_user : user_id)
    (GET_status GET_priority : option string) (db : DB) : result ListContext :=
  let user_todos := filter (owned_by request_user) (todos db) in
  let total := size user_todos in
  let active := size (filter (is_completed false) user_todos) in
  let finished := size (filter (is_completed true) user_todos) in
  let overdue := count_overdue user_todos (dt_date now) in
  let status := default "all" GET_status in
  let priority := default EmptyString GET_priority in
  let queryset :=
    if String.eqb status "active" then filter (is_completed false) user_todos
    else if String.eqb status "completed" then filter (is_completed true) user_todos
    else user_todos in
  let* queryset :=
    (if Py.truthy priority && Py.isdigit priority
     then let* p := py_int priority in ret (filter (has_priority p) queryset)
     else ret queryset) in
  ret (mk_list_context queryset total active finished overdue status priority).

Definition todo_list : string := "todos:todo_list".

(** The quotation mark of the f-strings. *)
Definition dquote : string := String "034"%char EmptyString.

(** [TodoListView.get] *)
Definition TodoListView_get (now : datetime) (request_user : user_id)
    (GET_status GET_priority : option string) (db : DB) : outcome :=
  mk_outcome db []
    (let* context := get_context_data now request_user GET_status GET_priority db in
     ret (RenderList context)).

(** [TodoCreateView.post] with [form_valid]. *)
Definition TodoCreateView_post (now : datetime) (request_user : user_id)
    (data : TodoFormData) (db : DB) : outcome :=
  match TodoForm_clean data (dt_date now) with
  | inl errors => mk_outcome db [] (ret (RenderForm errors))
  | inr cleaned =>
      let instance := construct_instance cleaned Todo_new in
      let instance := mk_todo (pk instance) (set_user (Some request_user) instance) in
      match Todo_save instance now db with
      | inl e => mk_outcome db [] (raise e)
      | inr (object, db') =>
          mk_outcome db'
            [mk_message SUCCESS ("Task " +:+ dquote +:+ title object +:+ dquote +:+ " created successfully!")]
            (ret (Redirect todo_list))
      end
  end.

(** [TodoUpdateView.get] *)
Definition TodoUpdateView_get (request_user : user_id) (k : Z) (db : DB) : outcome :=
  mk_outcome db []
    (let* object := get_object (get_queryset request_user db) k in ret (RenderForm [])).

(** [TodoUpdateView.post] with [form_valid]. *)
Definition TodoUpdateView_post (now : datetime) (request_user : user_id)
    (k : Z) (data : TodoFormData) (db : DB) : outcome :=
  match get_object (get_queryset request_user db) k with
  | inl e => mk_outcome db [] (raise e)
  | inr object =>
      match TodoForm_clean data (dt_date now) with
      | inl errors => mk_outcome db [] (ret (RenderForm errors))
      | inr cleaned =>
          match Todo_save (construct_instance cleaned object) now db with
          | inl e => mk_outcome db [] (raise e)
          | inr (object', db') =>
              mk_outcome db'
                [mk_message SUCCESS ("Task " +:+ dquote +:+ title object' +:+ dquote +:+ " updated successfully!")]
                (ret (Redirect todo_list))
          end
      end
  end.

(** [TodoDeleteView.get]: the confirmation page. *)
Definition TodoDeleteView_get (request_user : user_id) (k : Z) (db : DB) : outcome :=
  mk_outcome db []
    (let* object := get_object (get_queryset request_user db) k in
     ret (RenderConfirmDelete object)).

Definition msg_no_permission : string := "You don't have permission to delete this task.".
Definition msg_not_found : string := "Task not found or already deleted.".
Definition msg_unexpected : string := "An error occurred while deleting the task.".

(** The [try] block of [TodoDeleteView.delete]. *)
Definition delete_try (request_user : user_id) (k : Z) (db : DB)
  : result (DB * list message * response) :=
  let* object := get_object (get_queryset request_user db) k in
  let todo_title := title object in
  if negb (bool_decide (user object = Some request_user))
  then ret (db, [mk_message ERROR msg_no_permission], Redirect todo_list)
  else
    let* db' := Model_delete object db in
    ret (db',
         [mk_message SUCCESS ("Task " +:+ dquote +:+ todo_title +:+ dquote
                         +:+ " has been deleted successfully!")],
         Redirect todo_list).

(** [TodoDeleteView.delete], the handler of a confirmed deletion: the
    [try] block and its two [except] clauses, [Todo.DoesNotExist] first,
    then [Exception].  An exception leaves the table as it was.  The
    framework calls it for the HTTP method DELETE and, before Django 4.0,
    for a POST. *)
Definition TodoDeleteView_delete (request_user : user_id) (k : Z) (db : DB) : outcome :=
  match delete_try request_user k db with
  | inr (db', messages, r) => mk_outcome db' messages (ret r)
  | inl DoesNotExist =>
      mk_outcome db [mk_message ERROR msg_not_found] (ret (Redirect todo_list))
  | inl _ =>
      mk_outcome db [mk_message ERROR msg_unexpected] (ret (Redirect todo_list))
  end.

(** [BaseDeleteView.post] with [form_valid], which answers a POST since
    Django 4.0: the task is looked up in the view's query set and deleted,
    and the list is shown; the view's own [delete] is not called. *)
Definition TodoDeleteView_post (request_user : user_id) (k : Z) (db : DB) : outcome :=
  match get_object (get_queryset request_user db) k with
  | inl e => mk_outcome db [] (raise e)
  | inr object =>
      match Model_delete object db with
      | inl e => mk_outcome db [] (raise e)
      | inr db' => mk_outcome db' [] (ret (Redirect todo_list))
      end
  end.

(** [toggle_completion] *)
Definition toggle_completion (now : datetime) (request_user : user_id)
    (k : Z) (db : DB) : outcome :=
  match get_object_or_404 db k request_user with
  | inl e => mk_outcome db [] (raise e)
  | inr todo =>
      let todo := mk_todo (pk todo) (set_completed (negb (completed todo)) todo) in
      match Todo_save todo now db with
      | inl e => mk_outcome db [] (raise e)
      | inr (todo, db') =>
          let status := if completed todo then "completed" else "marked as active" in
          mk_outcome db'
            [mk_message INFO ("Task " +:+ dquote +:+ title todo +:+ dquote +:+ " " +:+ status +:+ ".")]
            (ret (Redirect todo_list))
      end
  end.

(** ** Requests *)

Inductive request : Type :=
| GET_list (status priority : option string)
| POST_create (data : TodoFormData)
| GET_update (k : Z)
| POST_update (k : Z) (data : TodoFormData)
| GET_delete (k : Z)
| POST_delete (k : Z)
| DELETE_delete (k : Z)
| POST_toggle (k : Z).

(** [LoginRequiredMixin] and [@login_required]: a request without an
    authenticated user ([who = None]) is redirected to the login page and
    the view is not run. *)
Definition login_required (who : option user_id) (view : user_id -> DB -> outcome)
    (db : DB) : outcome :=
  match who with
  | Some u => view u db
  | None => mk_outcome db [] (ret (Redirect "todos:login"))
  end.

(** The URL table of [urls.py], for the task views, with the handler the
    framework picks for the method.  [POST_delete] is a POST to the delete
    URL on Django 4.0 and later; [DELETE_delete] is a request that runs the
    view's [delete]: the method DELETE, and a POST before Django 4.0. *)
Definition dispatch (now : datetime) (who : option user_id) (req : request)
    (db : DB) : outcome :=
  match req with
  | GET_list status priority =>
      login_required who (fun u => TodoListView_get now u status priority) db
  | POST_create data => login_required who (fun u => TodoCreateView_post now u data) db
  | GET_update k => login_required who (fun u => TodoUpdateView_get u k) db
  | POST_update k data => login_required who (fun u => TodoUpdateView_post now u k data) db
  | GET_delete k => login_required who (fun u => TodoDeleteView_get u k) db
  | POST_delete k => login_required who (fun u => TodoDeleteView_post u k) db
  | DELETE_delete k => login_required who (fun u => TodoDeleteView_delete u k) db
  | POST_toggle k => login_required who (fun u => toggle_completion now u k) db
  end.

(** A history of requests, each with its time and its session's user. *)
Fixpoint run (history : list (datetime * option user_id * request)) (db : DB) : DB :=
  match history with
  | [] => db
  | (now, who, req) :: rest => run rest (out_db (dispatch now who req db))
  end.

(** ** forms.py: accounts and profile pictures *)

(** The columns of [auth.User] that the forms of this application read
    and write. *)
Record User : Type := mk_user {
  username : string;
  email : string
}.

Global Instance User_eq_dec : EqDecision User.
Proof. solve_decision. Defined.

Definition has_email (value : string) (kr : Z * User) : Prop := email kr.2 = value.

Definition not_pk (k : Z) (kr : Z * User) : Prop := kr.1 <> k.

Global Instance has_email_dec value kr : Decision (has_email value kr).
Proof. unfold has_email. apply _. Defined.

Global Instance not_pk_dec k kr : Decision (not_pk k kr).
Proof. unfold not_pk. apply _. Defined.

(** [queryset.exists()] *)
Definition QuerySet_exists {A : Type} `{EqDecision A} (queryset : gmap Z A) : bool :=
  negb (bool_decide (queryset = ∅)).

Definition msg_email_in_use : string := "This email address is already in use.".

(** [RegisterForm.clean_email]; [users] is the table of accounts. *)
Definition RegisterForm_clean_email (value : string) (users : gmap Z User)
  : result string :=
  if QuerySet_exists (filter (has_email value) users)
  then raise (ValidationError msg_email_in_use)
  else ret value.

(** [UserUpdateForm.clean_email]; [instance_pk] is the key of the account
    that is edited. *)
Definition UserUpdateForm_clean_email (value : string) (instance_pk : Z)
    (users : gmap Z User) : result string :=
  if QuerySet_exists (filter (not_pk instance_pk) (filter (has_email value) users))
  then raise (ValidationError msg_email_in_use)
  else ret value.

(** An uploaded or stored file, as [clean_image] reads it: its name and
    its size in bytes. *)
Record ImageFile : Type := mk_image_file {
  file_name : string;
  file_size : Z
}.

Definition valid_extensions : list string := ["jpg"; "jpeg"; "png"; "gif"; "webp"].

Definition max_image_size : Z := 5 * 1024 * 1024.

Definition msg_image_too_large : string := "Image file too large (>5MB)".

Definition msg_bad_extension : string :=
  "Unsupported file extension. Allowed: " +:+ PyStr.join ", " valid_extensions.

(** [ProfileUpdateForm.clean_image].  The cleaned value is [None] or a
    file; a file counts as true when its name is not empty. *)
Definition clean_image (image : option ImageFile) : result (option ImageFile) :=
  match image with
  | Some file =>
      if Py.truthy (file_name file) then
        if max_image_size <? file_size file
        then raise (ValidationError msg_image_too_large)
        else
          let extension :=
            PyStr.lower (PyStr.last_item (PyStr.split "." (file_name file))) in
          if bool_decide (extension ∈ valid_extensions)
          then ret image
          else raise (ValidationError msg_bad_extension)
      else ret image
  | None => ret image
  end.

(** ** admin.py *)

(** [TodoAdmin.days_until_due_display] *)
Definition days_until_due_display (obj : TodoFields) (today : date) : string :=
  match days_until_due obj today with
  | None => "No due date"
  | Some days =>
      if days <? 0 then "Overdue (" +:+ PyStr.str_of_int (Z.abs days) +:+ " days)"
      else if days =? 0 then "Due today"
      else PyStr.str_of_int days +:+ " days"
  end.

(** * Vocabulary of the statements *)

(** The string does not begin with white space. *)
Definition head_ok (s : string) : Prop :=
  match s with
  | EmptyString => True
  | String c _ => Py.isspace c = false
  end.

(** The string does not end with white space. *)
Fixpoint last_ok (s : string) : Prop :=
  match s with
  | EmptyString => True
  | String c EmptyString => Py.isspace c = false
  | String _ s' => last_ok s'
  end.

Definition set_due_date (d : option date) (f : TodoFields) : TodoFields :=
  mk_fields (user f) (title f) (description f) (completed f) (priority f)
            d (created_at f) (updated_at f).

(** The row a valid create form inserts. *)
Definition created_row (u : user_id) (cleaned : TodoFormData) (now : datetime)
  : TodoFields :=
  mk_fields (Some u) (data_title cleaned) (data_description cleaned) false
            (data_priority cleaned) (data_due_date cleaned) (Some now) (Some now).

(** The row a valid update form leaves in place of [f]. *)
Definition updated_row (f : TodoFields) (cleaned : TodoFormData) (now : datetime)
  : TodoFields :=
  mk_fields (user f) (data_title cleaned) (data_description cleaned) (completed f)
            (data_priority cleaned) (data_due_date cleaned) (created_at f) (Some now).

(** The row a toggle leaves in place of [f]. *)
Definition toggled_row (f : TodoFields) (now : datetime) : TodoFields :=
  mk_fields (user f) (title f) (description f) (negb (completed f))
            (priority f) (due_date f) (created_at f) (Some now).

(** The changes a request can make to the table: none, the insertion of a
    row owned by the requester under the next key, the replacement of a row
    of the requester by a row of the same owner, and the deletion of a row
    of the requester. *)
Inductive db_step (db : DB) : DB -> Prop :=
| step_none : db_step db db
| step_insert (u : user_id) (f : TodoFields) :
    user f = Some u ->
    db_step db (mk_db (<[next_id db := f]> (todos db)) (next_id db + 1))
| step_replace (u : user_id) (k : Z) (f f' : TodoFields) :
    todos db !! k = Some f -> user f = Some u -> user f' = Some u ->
    db_step db (mk_db (<[k := f']> (todos db)) (next_id db))
| step_delete (u : user_id) (k : Z) (f : TodoFields) :
    todos db !! k = Some f -> user f = Some u ->
    db_step db (mk_db (delete k (todos db)) (next_id db)).

(** Every row of the table has an owner. *)
Definition owner_invariant (db : DB) : Prop :=
  map_Forall (fun _ f => is_Some (user f)) (todos db).

(** The number of rows of a table that satisfy a property. *)
Definition count_rows (P : TodoFields -> Prop) `{!forall f, Decision (P f)}
    (m : gmap Z TodoFields) : nat :=
  size (filter (fun kr : Z * TodoFields => P kr.2) m).

(** The string is a numeral of the decimal digits 0 to 9, and [n] is the
    number it denotes. *)
Definition denotes (s : string) (n : Z) : Prop :=
  s <> EmptyString
  /\ exists d, NilEmpty.uint_of_string s = Some d /\ Z.of_uint d = n.

(** A task passes the filters of a list request: the status filter
    [active] or [completed], any other status showing all, and the
    priority filter when the parameter is a decimal numeral. *)
Definition matches_filters (status prio : string) (f : TodoFields) : Prop :=
  (status = "active" -> completed f = false)
  /\ (status = "completed" -> completed f = true)
  /\ (forall n, denotes prio n -> priority f = n).

(** The context of a list request is as it should be: the four counts are
    those of all tasks of the caller, and the displayed tasks are the
    caller's tasks that pass the filters. *)
Definition list_context_ok (today : date) (u : user_id) (status prio : string)
    (db : DB) (ctx : ListContext) : Prop :=
  total_count ctx = count_rows (fun f => user f = Some u) (todos db)
  /\ active_count ctx
     = count_rows (fun f => user f = Some u /\ completed f = false) (todos db)
  /\ completed_count ctx
     = count_rows (fun f => user f = Some u /\ completed f = true) (todos db)
  /\ overdue_count ctx
     = count_rows (fun f => user f = Some u /\ is_overdue f today = true) (todos db)
  /\ (forall k f, ctx_todos ctx !! k = Some f <->
                  todos db !! k = Some f /\ user f = Some u
                  /\ matches_filters status prio f).

(** The status filter of [get_context_data]. *)
Definition status_queryset (status : string) (user_todos : gmap Z TodoFields)
  : gmap Z TodoFields :=
  if String.eqb status "active" then filter (is_completed false) user_todos
  else if String.eqb status "completed" then filter (is_completed true) user_todos
  else user_todos.

(** The table without the row of key [k]. *)
Definition without (k : Z) (db : DB) : DB := mk_db (delete k (todos db)) (next_id db).

(** A table with one task of user 1 and two users' requests on it. *)
Definition sample_row : TodoFields :=
  mk_fields (Some 1) "Buy milk" None false 3 (Some 738000)
            (Some (mk_datetime 737990 0)) (Some (mk_datetime 737990 0)).

Definition sample_db : DB := mk_db {[ 1 := sample_row ]} 2.

Definition sample_now : datetime := mk_datetime 737995 3600.

Definition sample_data : TodoFormData :=
  mk_form_data "  Buy bread " None 4 (Some 737995).

(** The table after user 1 has deleted the sample task. *)
Definition sample_deleted_db : DB := out_db (TodoDeleteView_delete 1 1 sample_db).

(** The one-character string SUPERSCRIPT TWO (U+00B2). *)
Definition superscript_two : string := String "178"%char EmptyString.

(** A history on the empty table: user 1 creates a task, user 2 and then
    user 1 toggle it, and a visitor who is not logged in posts a task. *)
Definition sample_history : list (datetime * option user_id * request) :=
  [ (sample_now, Some 1, POST_create sample_data);
    (sample_now, Some 2, POST_toggle 1);
    (sample_now, Some 1, POST_toggle 1);
    (sample_now, None, POST_create sample_data) ].

(** ** Vocabulary of the further properties *)

(** No key at or above the next key of the sequence is in use. *)
Definition next_id_fresh (db : DB) : Prop :=
  forall k, next_id db <= k -> todos db !! k = None.

(** The effect of one request of [who] on the table, with the row it
    writes: nothing, the row of a valid create form under the next key,
    the row of a valid update form or of a toggle in place of a row of the
    requester, or the removal of a row of the requester. *)
Inductive change (who : option user_id) (db : DB) : DB -> Prop :=
| change_none : change who db db
| change_create (u : user_id) (data cleaned : TodoFormData) (now : datetime) :
    who = Some u ->
    TodoForm_clean data (dt_date now) = inr cleaned ->
    change who db
      (mk_db (<[next_id db := created_row u cleaned now]> (todos db)) (next_id db + 1))
| change_update (u : user_id) (k : Z) (f : TodoFields) (data cleaned : TodoFormData)
    (now : datetime) :
    who = Some u ->
    todos db !! k = Some f -> user f = Some u ->
    TodoForm_clean data (dt_date now) = inr cleaned ->
    change who db (mk_db (<[k := updated_row f cleaned now]> (todos db)) (next_id db))
| change_toggle (u : user_id) (k : Z) (f : TodoFields) (now : datetime) :
    who = Some u ->
    todos db !! k = Some f -> user f = Some u ->
    change who db (mk_db (<[k := toggled_row f now]> (todos db)) (next_id db))
| change_delete (u : user_id) (k : Z) (f : TodoFields) :
    who = Some u ->
    todos db !! k = Some f -> user f = Some u ->
    change who db (without k db).

(** The requests that only read: the list and the two pages that show a
    form before anything is submitted. *)
Definition is_read_only (req : request) : bool :=
  match req with
  | GET_list _ _ | GET_update _ | GET_delete _ => true
  | _ => false
  end.

(** The values a [TodoForm] accepts. *)
Definition form_ok (data : TodoFormData) (today : date) : Prop :=
  3 <= Py.len (Py.strip (data_title data)) <= title_max_length
  /\ Py.has_null (data_title data) = false
  /\ Py.has_null (default EmptyString (data_description data)) = false
  /\ 1 <= data_priority data <= 5
  /\ (forall d, data_due_date data = Some d -> today <= d).

(** What [cleaned_data] holds for accepted values: the title and the
    description stripped, an absent description as the empty string. *)
Definition cleaned_of (data : TodoFormData) : TodoFormData :=
  mk_form_data (Py.strip (data_title data))
               (Some (Py.strip (default EmptyString (data_description data))))
               (data_priority data) (data_due_date data).

(** The form has an error for the title. *)
Definition title_refused (data : TodoFormData) (today : date) : Prop :=
  exists errors e, TodoForm_clean data today = inl errors /\ In ("title", e) errors.

(** [201 * 'a'] *)
Definition long_title : string := string_of_list_ascii (List.repeat "a"%char 201).

(** A stored row is as the forms leave it: the title is stripped and has
    3 to 200 characters, the priority is one of the five choices, the row
    has an owner and both time stamps. *)
Definition row_wellformed (f : TodoFields) : Prop :=
  Py.strip (title f) = title f
  /\ 3 <= Py.len (title f) <= title_max_length
  /\ 1 <= priority f <= 5
  /\ is_Some (user f) /\ is_Some (created_at f) /\ is_Some (updated_at f).

(** A history with one more user and a second task. *)
Definition sample_history_2 : list (datetime * option user_id * request) :=
  [ (sample_now, Some 2, POST_create sample_data);
    (sample_now, Some 2, POST_toggle 1);
    (sample_now, Some 2, POST_delete 1);
    (sample_now, None, POST_delete 1);
    (sample_now, Some 2, POST_update 1 sample_data);
    (sample_now, Some 2, POST_toggle 2) ].

(** The contexts of three list requests of user 1 on the sample table, all
    with the priority parameter 3. *)
Definition sample_context_active : ListContext :=
  mk_list_context {[ 1 := sample_row ]} 1 1 0 0 "active" "3".

Definition sample_context_completed : ListContext :=
  mk_list_context ∅ 1 1 0 0 "completed" "3".

Definition sample_context_all : ListContext :=
  mk_list_context {[ 1 := sample_row ]} 1 1 0 0 "all" "3".

(** No two accounts have the same email address. *)
Definition emails_unique (users : gmap Z User) : Prop :=
  forall k1 k2 u1 u2,
    users !! k1 = Some u1 -> users !! k2 = Some u2 -> email u1 = email u2 -> k1 = k2.

(** The string has no dot. *)
Definition no_dot (s : string) : bool :=
  Py.all_chars (fun c => negb (Ascii.eqb c ".")) s.

(** The cleaning method has accepted the value. *)
Definition accepted {A : Type} (r : result A) : Prop := exists a, r = inr a.

(** Two accounts. *)
Definition sample_users : gmap Z User :=
  {[ 1 := mk_user "ann" "ann@example.org"; 2 := mk_user "bob" "bob@example.org" ]}.

(** * Properties *)

(** ** Stripping *)

Section Strip.

Import Py.

Lemma rstrip_cons (c : ascii) (s : string) :
  rstrip (String c s) =
    match rstrip s with
    | EmptyString => if isspace c then EmptyString else String c EmptyString
    | r => String c r
    end.
Proof. reflexivity. Qed.

Lemma rstrip_idemp (s : string) : rstrip (rstrip s) = rstrip s.
Proof.
  induction s as [|c s IH]; [reflexivity|].
  rewrite rstrip_cons.
  destruct (rstrip s) as [|c' r] eqn:E.
  - destruct (isspace c) eqn:Hc; [reflexivity|].
    cbn. now rewrite Hc.
  - rewrite rstrip_cons, IH. reflexivity.
Qed.

Lemma lstrip_head_ok (s : string) : head_ok (lstrip s).
Proof.
  induction s as [|c s IH]; cbn; [exact I|].
  destruct (isspace c) eqn:Hc; [exact IH|]. cbn. exact Hc.
Qed.

Lemma lstrip_fixed (s : string) : head_ok s -> lstrip s = s.
Proof. destruct s as [|c s]; cbn; [reflexivity|]. now intros ->. Qed.

Lemma rstrip_head_ok (s : string) : head_ok s -> head_ok (rstrip s).
Proof.
  destruct s as [|c s]; cbn; [exact id|]. intros Hc.
  destruct (rstrip s); [rewrite Hc|]; cbn; exact Hc.
Qed.

Lemma rstrip_last_ok (s : string) : last_ok (rstrip s).
Proof.
  induction s as [|c s IH]; [exact I|].
  rewrite rstrip_cons. destruct (rstrip s) as [|c' r].
  - destruct (isspace c) eqn:Hc; cbn; [exact I|exact Hc].
  - exact IH.
Qed.

Lemma lstrip_decompose (s : string) :
  exists l, s = l +:+ lstrip s /\ all_chars isspace l = true.
Proof.
  induction s as [|c s (l & Hs & Hl)]; [exists EmptyString; now split|].
  cbn. destruct (isspace c) eqn:Hc.
  - exists (String c l). split.
    + change (String c s = String c (l +:+ lstrip s)). now f_equal.
    + cbn. now rewrite Hc, Hl.
  - exists EmptyString. now split.
Qed.

Lemma rstrip_decompose (s : string) :
  exists r, s = rstrip s +:+ r /\ all_chars isspace r = true.
Proof.
  induction s as [|c s (r & Hs & Hr)]; [exists EmptyString; now split|].
  rewrite rstrip_cons. destruct (rstrip s) as [|c' t].
  - change (s = r) in Hs. subst r. destruct (isspace c) eqn:Hc.
    + exists (String c s). split; [reflexivity|]. cbn. now rewrite Hc, Hr.
    + exists s. now split.
  - exists r. split; [|exact Hr].
    change (String c s = String c (String c' t +:+ r)). now f_equal.
Qed.

(** [strip] removes a run of white space at each end, and what is left
    neither begins nor ends with white space. *)
Lemma strip_trims (s : string) :
  (exists l r, s = l +:+ strip s +:+ r
               /\ all_chars isspace l = true /\ all_chars isspace r = true)
  /\ head_ok (strip s) /\ last_ok (strip s).
Proof.
  unfold strip. split; [|split].
  - destruct (lstrip_decompose s) as (l & Hl & Hlw).
    destruct (rstrip_decompose (lstrip s)) as (r & Hr & Hrw).
    exists l, r. split; [|now split]. now rewrite <- Hr.
  - apply rstrip_head_ok, lstrip_head_ok.
  - apply rstrip_last_ok.
Qed.

Lemma strip_idemp (s : string) : strip (strip s) = strip s.
Proof.
  unfold strip.
  rewrite (lstrip_fixed (rstrip (lstrip s))).
  - apply rstrip_idemp.
  - apply rstrip_head_ok, lstrip_head_ok.
Qed.

Lemma len_nonneg (s : string) : 0 <= len s.
Proof. unfold len. lia. Qed.

Lemma truthy_len (s : string) : truthy s = true <-> 0 < len s.
Proof. destruct s; cbn; split; intros; try lia; try discriminate; reflexivity. Qed.

End Strip.

(** ** Derived queries of a task *)

(** C5.  [is_overdue] is true exactly when the due date is set, the task is
    not completed and the due date is strictly before today; without a
    due date, for a completed task, and for a due date of today or later
    it is false. *)
Theorem is_overdue_iff (self : TodoFields) (today : date) :
  (is_overdue self today = true <->
     exists d, due_date self = Some d /\ completed self = false /\ d < today)
  /\ (due_date self = None -> is_overdue self today = false)
  /\ (completed self = true -> is_overdue self today = false)
  /\ (forall d, due_date self = Some d -> today <= d -> is_overdue self today = false).
Proof.
  unfold is_overdue. repeat split.
  - destruct (due_date self) as [d|]; [|discriminate].
    destruct (completed self); cbn; [discriminate|].
    intros H. exists d. repeat split. lia.
  - intros (d & -> & -> & H). cbn. lia.
  - now intros ->.
  - intros ->. now destruct (due_date self).
  - intros d -> H. destruct (completed self); cbn; [reflexivity|lia].
Qed.

(** C6.  [days_until_due] is the signed difference in days between the due
    date and today: [n] for a due date [n] days from today (3 for three
    days ahead, -2 for two days ago, 0 for today), and [None] without a due
    date. *)
Theorem days_until_due_signed (self : TodoFields) (today : date) :
  (forall d, days_until_due (set_due_date (Some d) self) today = Some (d - today))
  /\ (forall n, days_until_due (set_due_date (Some (today + n)) self) today = Some n)
  /\ days_until_due (set_due_date (Some (today + 3)) self) today = Some 3
  /\ days_until_due (set_due_date (Some (today - 2)) self) today = Some (-2)
  /\ days_until_due (set_due_date (Some today) self) today = Some 0
  /\ days_until_due (set_due_date None self) today = None
  /\ (days_until_due self today = None <-> due_date self = None).
Proof.
  unfold days_until_due. cbn. repeat split; intros; try (f_equal; lia).
  - now destruct (due_date self).
  - now rewrite H.
Qed.

(** ** Form validation *)

(** [clean_due_date] rejects a due date exactly when it is set and
    earlier than today, and returns an accepted value as submitted. *)
Lemma clean_due_date_spec (due : option date) (today : date) :
  (clean_due_date due today = inl (ValidationError msg_due_date_past) <->
     exists d, due = Some d /\ d < today)
  /\ (clean_due_date due today = inr due <-> ~ exists d, due = Some d /\ d < today)
  /\ clean_due_date (Some (today - 1)) today = inl (ValidationError msg_due_date_past)
  /\ clean_due_date (Some today) today = inr (Some today)
  /\ clean_due_date None today = inr None
  /\ (forall n, 0 <= n -> clean_due_date (Some (today + n)) today = inr (Some (today + n))).
Proof.
  unfold clean_due_date, raise, ret. repeat split.
  - destruct due as [d|]; [|discriminate].
    destruct (Z.ltb_spec d today); [|discriminate]. intros _. now exists d.
  - intros (d & -> & H). destruct (Z.ltb_spec d today); [reflexivity|lia].
  - destruct due as [d|]; [|now intros _ (d & ? & _)].
    destruct (Z.ltb_spec d today); [discriminate|].
    intros _ (d' & [= <-] & ?). lia.
  - intros H. destruct due as [d|]; [|reflexivity].
    destruct (Z.ltb_spec d today); [|reflexivity].
    exfalso. apply H. now exists d.
  - destruct (Z.ltb_spec (today - 1) today); [reflexivity|lia].
  - destruct (Z.ltb_spec today today); [lia|reflexivity].
  - intros n Hn. destruct (Z.ltb_spec (today + n) today); [lia|reflexivity].
Qed.

(** [clean_title] strips the title, rejects it exactly when fewer than
    three characters are left, and returns the stripped title otherwise. *)
Lemma clean_title_spec (s : string) :
  (clean_title s = inl (ValidationError msg_title_short) <-> Py.len (Py.strip s) < 3)
  /\ (clean_title s = inr (Py.strip s) <-> 3 <= Py.len (Py.strip s)).
Proof.
  unfold clean_title, raise, ret.
  destruct (Z.ltb_spec (Py.len (Py.strip s)) 3); split; split;
    intros; try discriminate; try lia; reflexivity.
Qed.

(** *** The whole form *)

Lemma field_errors_In {A : Type} (name name' : string) (r : result A) (e : exn) :
  In (name', e) (field_errors name r) <-> name' = name /\ r = inl e.
Proof.
  destruct r as [e'|a]; cbn.
  - split.
    + intros [[= <- <-]|[]]. now split.
    + intros [-> [= ->]]. now left.
  - split; [intros []|intros [_ [=]]].
Qed.

Lemma field_error_list_In {A : Type} (name name' : string) (r : list exn + A) (e : exn) :
  In (name', e) (field_error_list name r) <->
  name' = name /\ exists errors, r = inl errors /\ In e errors.
Proof.
  destruct r as [errors|a]; cbn.
  - rewrite in_map_iff. split.
    + intros (e' & [= <- <-] & Hin). split; [reflexivity|]. now exists errors.
    + intros [-> (errors' & [= <-] & Hin)]. now exists e.
  - split; [intros []|intros [_ (? & [=] & _)]].
Qed.

Lemma isspace_not_null (c : ascii) :
  Py.isspace c = true -> (nat_of_ascii c =? 0)%nat = false.
Proof.
  unfold Py.isspace. destruct (Nat.eqb_spec (nat_of_ascii c) 0) as [->|]; [|reflexivity].
  discriminate.
Qed.

Lemma has_null_lstrip (s : string) : Py.has_null (Py.lstrip s) = Py.has_null s.
Proof.
  induction s as [|c s IH]; [reflexivity|]. cbn.
  destruct (Py.isspace c) eqn:Hc; [|reflexivity].
  now rewrite (isspace_not_null c Hc), IH.
Qed.

Lemma has_null_rstrip (s : string) : Py.has_null (Py.rstrip s) = Py.has_null s.
Proof.
  induction s as [|c s IH]; [reflexivity|].
  rewrite rstrip_cons. cbn [Py.has_null]. rewrite <- IH.
  destruct (Py.rstrip s) as [|c' r].
  - destruct (Py.isspace c) eqn:Hc; cbn.
    + now rewrite (isspace_not_null c Hc).
    + reflexivity.
  - reflexivity.
Qed.

Lemma has_null_strip (s : string) : Py.has_null (Py.strip s) = Py.has_null s.
Proof. unfold Py.strip. now rewrite has_null_rstrip, has_null_lstrip. Qed.

(** The title of the form: accepted with 3 to 200 characters after
    stripping and without a null character, refused otherwise. *)
Lemma TodoForm_clean_title_field_cases (v : string) :
  (3 <= Py.len (Py.strip v) <= title_max_length /\ Py.has_null v = false
   /\ TodoForm_clean_title_field v = inr (Py.strip v))
  \/ ((Py.len (Py.strip v) < 3 \/ title_max_length < Py.len (Py.strip v)
       \/ Py.has_null v = true)
      /\ exists errors, TodoForm_clean_title_field v = inl errors /\ errors <> []).
Proof.
  unfold TodoForm_clean_title_field, title_field_clean, char_field_validators,
    clean_title, raise, ret.
  pose proof (truthy_len (Py.strip v)) as Htr.
  rewrite has_null_strip.
  destruct (Py.truthy (Py.strip v)); cbn [negb].
  2:{ right. split; [left|eexists; split; [reflexivity|discriminate]].
      destruct (Z_lt_dec 0 (Py.len (Py.strip v))) as [H|H]; [|lia].
      apply Htr in H. discriminate. }
  destruct (Z.ltb_spec title_max_length (Py.len (Py.strip v))) as [Hlong|Hlong].
  { right. split; [right; left; exact Hlong|].
    destruct (Py.has_null v); eexists; (split; [reflexivity|discriminate]). }
  destruct (Py.has_null v) eqn:Hnull; cbn [app].
  { right. split; [right; right; reflexivity|].
    eexists; (split; [reflexivity|discriminate]). }
  rewrite strip_idemp.
  destruct (Z.ltb_spec (Py.len (Py.strip v)) 3) as [Hshort|Hshort].
  - right. split; [left; exact Hshort|]. eexists; (split; [reflexivity|discriminate]).
  - left. repeat split; assumption.
Qed.

(** The description of the form: stripped, refused only for a null
    character. *)
Lemma description_field_clean_cases (v : option string) :
  (Py.has_null (default EmptyString v) = false
   /\ description_field_clean v = inr (Py.strip (default EmptyString v)))
  \/ (Py.has_null (default EmptyString v) = true
      /\ description_field_clean v = inl [ValidationError msg_null_characters]).
Proof.
  unfold description_field_clean, char_field_validators.
  rewrite has_null_strip.
  destruct (Py.strip (default EmptyString v)) as [|c r] eqn:Hs.
  - cbn. left. split; [|reflexivity]. rewrite <- has_null_strip, Hs. reflexivity.
  - cbn [Py.truthy negb app].
    destruct (Py.has_null (default EmptyString v)); [right|left]; now split.
Qed.

Lemma priority_field_clean_cases (v : Z) :
  (1 <= v <= 5 /\ priority_field_clean v = inr v)
  \/ (~ 1 <= v <= 5
      /\ priority_field_clean v = inl (ValidationError (msg_invalid_choice v))).
Proof.
  unfold priority_field_clean, raise, ret, PRIORITY_CHOICES.
  case_bool_decide as Hp; rewrite !elem_of_cons, elem_of_nil in Hp;
    [left|right]; (split; [lia|reflexivity]).
Qed.

(** The form, by cases on the submitted values. *)
Lemma TodoForm_clean_cases (data : TodoFormData) (today : date) :
  (form_ok data today /\ TodoForm_clean data today = inr (cleaned_of data))
  \/ (~ form_ok data today
      /\ exists errors,
           TodoForm_clean data today = inl errors /\ errors <> []
           /\ errors
              = (field_error_list "title" (TodoForm_clean_title_field (data_title data))
                 ++ field_error_list "description"
                      (description_field_clean (data_description data))
                 ++ field_errors "priority" (priority_field_clean (data_priority data))
                 ++ field_errors "due_date"
                      (clean_due_date (data_due_date data) today))%list).
Proof.
  unfold TodoForm_clean, form_ok, cleaned_of.
  destruct (TodoForm_clean_title_field_cases (data_title data))
    as [(Hlen & Hnull & ->)|(Hbad & errs & -> & Hne)].
  - destruct (description_field_clean_cases (data_description data))
      as [(Hdnull & ->)|(Hdnull & ->)].
    + destruct (priority_field_clean_cases (data_priority data))
        as [(Hprio & ->)|(Hprio & ->)].
      * destruct (clean_due_date_spec (data_due_date data) today) as (Hrej & Hacc & _).
        destruct (clean_due_date (data_due_date data) today) as [e|d'] eqn:Hd.
        -- right. split; [|eexists; split; [reflexivity|split; [discriminate|reflexivity]]].
           intros (_ & _ & _ & _ & Hdue).
           assert (He : @inl exn (option date) e = inr (data_due_date data)).
           { apply Hacc. intros (d & Hd' & Hlt). specialize (Hdue d Hd'). lia. }
           discriminate.
        -- left.
           assert (d' = data_due_date data) as ->.
           { revert Hd. unfold clean_due_date, raise, ret.
             destruct (data_due_date data) as [d|]; [|now intros [= <-]].
             destruct (d <? today); [discriminate|now intros [= <-]]. }
           split; [|reflexivity]. repeat split; try assumption; try lia.
           intros d Hd'. destruct (Z_le_dec today d) as [|Hlt]; [assumption|].
           exfalso. assert (Hpast : exists d0, data_due_date data = Some d0 /\ d0 < today)
             by (exists d; split; [assumption|lia]).
           apply Hrej in Hpast. discriminate.
      * right. split; [intros (_ & _ & _ & H & _); contradiction|].
        destruct (clean_due_date (data_due_date data) today);
          eexists; (split; [reflexivity|split; [discriminate|reflexivity]]).
    + right. split; [intros (_ & _ & H & _); congruence|].
      destruct (priority_field_clean (data_priority data)),
               (clean_due_date (data_due_date data) today);
        eexists; (split; [reflexivity|split; [discriminate|reflexivity]]).
  - right. split.
    + intros (Hlen & Hnull & _). destruct Hbad as [H|[H|H]]; [lia|lia|congruence].
    + destruct errs as [|e1 errs]; [congruence|].
      destruct (description_field_clean (data_description data)),
               (priority_field_clean (data_priority data)),
               (clean_due_date (data_due_date data) today);
        eexists; (split; [reflexivity|split; [discriminate|reflexivity]]).
Qed.

Lemma TodoForm_clean_errors (data : TodoFormData) (today : date)
    (errors : list (string * exn)) :
  TodoForm_clean data today = inl errors ->
  errors = (field_error_list "title" (TodoForm_clean_title_field (data_title data))
            ++ field_error_list "description"
                 (description_field_clean (data_description data))
            ++ field_errors "priority" (priority_field_clean (data_priority data))
            ++ field_errors "due_date" (clean_due_date (data_due_date data) today))%list
  /\ errors <> [] /\ ~ form_ok data today.
Proof.
  intros Hc.
  destruct (TodoForm_clean_cases data today) as [[_ Hv]|(Hno & errs & He & Hne & Heq)];
    [congruence|].
  assert (errs = errors) as -> by congruence. auto.
Qed.

(** A valid form: what [cleaned_data] holds. *)
Lemma TodoForm_clean_valid (data cleaned : TodoFormData) (today : date) :
  TodoForm_clean data today = inr cleaned ->
  form_ok data today /\ cleaned = cleaned_of data.
Proof.
  intros Hc.
  destruct (TodoForm_clean_cases data today) as [[Hok Hv]|(_ & errs & He & _)];
    [|congruence].
  split; [exact Hok|congruence].
Qed.

(** The form reports an error on [due_date] exactly for a date in the
    past. *)
Lemma TodoForm_due_date_error_iff (data : TodoFormData) (today : date) :
  (exists errors, TodoForm_clean data today = inl errors
                  /\ In ("due_date", ValidationError msg_due_date_past) errors)
  <-> exists d, data_due_date data = Some d /\ d < today.
Proof.
  destruct (clean_due_date_spec (data_due_date data) today) as (Hrej & _).
  split.
  - intros (errors & Hclean & Hin).
    apply TodoForm_clean_errors in Hclean as (-> & _).
    apply Hrej.
    rewrite !in_app_iff, !field_errors_In, !field_error_list_In in Hin.
    destruct Hin as [[[=] _]|[[[=] _]|[[[=] _]|[_ H]]]]. exact H.
  - intros Hpast.
    destruct (TodoForm_clean_cases data today) as [[Hok _]|(_ & errs & He & _ & ->)].
    + exfalso. destruct Hpast as (d & Hd & Hlt).
      destruct Hok as (_ & _ & _ & _ & Hdue). specialize (Hdue d Hd). lia.
    + eexists. split; [exact He|].
      rewrite !in_app_iff, !field_errors_In. apply Hrej in Hpast. auto.
Qed.

(** ** Owner-scoped lookup *)

Lemma get_queryset_lookup (u : user_id) (db : DB) (k : Z) (f : TodoFields) :
  get_queryset u db !! k = Some f <-> todos db !! k = Some f /\ user f = Some u.
Proof. unfold get_queryset. rewrite map_lookup_filter_Some. reflexivity. Qed.

Lemma get_queryset_lookup_None (u : user_id) (db : DB) (k : Z) :
  get_queryset u db !! k = None <->
  forall f, todos db !! k = Some f -> user f <> Some u.
Proof.
  unfold get_queryset. rewrite map_lookup_filter_None. split.
  - intros [H|H] f Hf; [congruence|]. exact (H f Hf).
  - intros H. right. intros f Hf. exact (H f Hf).
Qed.

Lemma get_object_Some (qs : gmap Z TodoFields) (k : Z) (f : TodoFields) :
  qs !! k = Some f -> get_object qs k = inr (mk_todo (Some k) f).
Proof. unfold get_object, QuerySet_get. now intros ->. Qed.

Lemma get_object_None (qs : gmap Z TodoFields) (k : Z) :
  qs !! k = None -> get_object qs k = inl Http404.
Proof. unfold get_object, QuerySet_get. now intros ->. Qed.

Lemma get_object_or_404_eq (db : DB) (k : Z) (u : user_id) :
  get_object_or_404 db k u = get_object (get_queryset u db) k.
Proof. reflexivity. Qed.


(** ** What each handler does to the table *)

(** [Todo.save] of an instance with an owner is [Model.save]. *)
Lemma Todo_save_owned (self : Todo) (now : datetime) (db : DB) :
  is_Some (user self) -> Todo_save self now db = inr (Model_save self now db).
Proof.
  intros H. unfold Todo_save.
  now rewrite (bool_decide_eq_true_2 _ H), andb_false_r.
Qed.

(** [Todo.save] of a new instance without owner raises. *)
Lemma Todo_save_no_owner (f : TodoFields) (now : datetime) (db : DB) :
  user f = None ->
  Todo_save (mk_todo None f) now db = inl (ValueError "Todo must have a user").
Proof.
  intros H. unfold Todo_save. cbn. rewrite H.
  rewrite bool_decide_eq_false_2; [reflexivity|]. now intros [? [=]].
Qed.

Section Handlers.

Variables (now : datetime) (u : user_id) (db : DB).

Lemma create_invalid (data : TodoFormData) (errors : list (string * exn)) :
  TodoForm_clean data (dt_date now) = inl errors ->
  TodoCreateView_post now u data db = mk_outcome db [] (inr (RenderForm errors)).
Proof. unfold TodoCreateView_post. now intros ->. Qed.

Lemma create_valid (data cleaned : TodoFormData) :
  TodoForm_clean data (dt_date now) = inr cleaned ->
  TodoCreateView_post now u data db =
    mk_outcome
      (mk_db (<[next_id db := created_row u cleaned now]> (todos db)) (next_id db + 1))
      [mk_message SUCCESS
         ("Task " +:+ dquote +:+ data_title cleaned +:+ dquote +:+ " created successfully!")]
      (inr (Redirect todo_list)).
Proof. unfold TodoCreateView_post. now intros ->. Qed.

Lemma update_missing (k : Z) (data : TodoFormData) :
  get_queryset u db !! k = None ->
  TodoUpdateView_post now u k data db = mk_outcome db [] (inl Http404).
Proof.
  intros H. unfold TodoUpdateView_post. now rewrite (get_object_None _ _ H).
Qed.

Lemma update_invalid (k : Z) (f : TodoFields) (data : TodoFormData)
    (errors : list (string * exn)) :
  get_queryset u db !! k = Some f ->
  TodoForm_clean data (dt_date now) = inl errors ->
  TodoUpdateView_post now u k data db = mk_outcome db [] (inr (RenderForm errors)).
Proof.
  intros H Hc. unfold TodoUpdateView_post.
  now rewrite (get_object_Some _ _ _ H), Hc.
Qed.

Lemma update_valid (k : Z) (f : TodoFields) (data cleaned : TodoFormData) :
  get_queryset u db !! k = Some f ->
  TodoForm_clean data (dt_date now) = inr cleaned ->
  TodoUpdateView_post now u k data db =
    mk_outcome
      (mk_db (<[k := updated_row f cleaned now]> (todos db)) (next_id db))
      [mk_message SUCCESS
         ("Task " +:+ dquote +:+ data_title cleaned +:+ dquote +:+ " updated successfully!")]
      (inr (Redirect todo_list)).
Proof.
  intros H Hc. unfold TodoUpdateView_post.
  rewrite (get_object_Some _ _ _ H), Hc.
  apply get_queryset_lookup in H as [Hk Hu].
  rewrite Todo_save_owned by (cbn; now rewrite Hu).
  unfold Model_save. cbn. now rewrite Hk.
Qed.

Lemma toggle_missing (k : Z) :
  get_queryset u db !! k = None ->
  toggle_completion now u k db = mk_outcome db [] (inl Http404).
Proof.
  intros H. unfold toggle_completion.
  now rewrite get_object_or_404_eq, (get_object_None _ _ H).
Qed.

Lemma toggle_owner (k : Z) (f : TodoFields) :
  get_queryset u db !! k = Some f ->
  toggle_completion now u k db =
    mk_outcome
      (mk_db (<[k := toggled_row f now]> (todos db)) (next_id db))
      [mk_message INFO
         ("Task " +:+ dquote +:+ title f +:+ dquote +:+ " "
          +:+ (if negb (completed f) then "completed" else "marked as active") +:+ ".")]
      (inr (Redirect todo_list)).
Proof.
  intros H. unfold toggle_completion.
  rewrite get_object_or_404_eq, (get_object_Some _ _ _ H).
  apply get_queryset_lookup in H as [Hk Hu].
  rewrite Todo_save_owned by (cbn; now rewrite Hu).
  unfold Model_save. cbn. now rewrite Hk.
Qed.

Lemma delete_missing (k : Z) :
  get_queryset u db !! k = None ->
  TodoDeleteView_delete u k db =
    mk_outcome db [mk_message ERROR msg_unexpected] (inr (Redirect todo_list)).
Proof.
  intros H. unfold TodoDeleteView_delete, delete_try.
  now rewrite (get_object_None _ _ H).
Qed.

Lemma delete_owner (k : Z) (f : TodoFields) :
  get_queryset u db !! k = Some f ->
  TodoDeleteView_delete u k db =
    mk_outcome
      (mk_db (delete k (todos db)) (next_id db))
      [mk_message SUCCESS
         ("Task " +:+ dquote +:+ title f +:+ dquote +:+ " has been deleted successfully!")]
      (inr (Redirect todo_list)).
Proof.
  intros H. unfold TodoDeleteView_delete, delete_try.
  rewrite (get_object_Some _ _ _ H).
  apply get_queryset_lookup in H as [Hk Hu].
  cbn. rewrite Hu. now rewrite bool_decide_eq_true_2.
Qed.

Lemma delete_post_missing (k : Z) :
  get_queryset u db !! k = None ->
  TodoDeleteView_post u k db = mk_outcome db [] (inl Http404).
Proof.
  intros H. unfold TodoDeleteView_post. now rewrite (get_object_None _ _ H).
Qed.

Lemma delete_post_owner (k : Z) (f : TodoFields) :
  get_queryset u db !! k = Some f ->
  TodoDeleteView_post u k db =
    mk_outcome (mk_db (delete k (todos db)) (next_id db)) [] (inr (Redirect todo_list)).
Proof.
  intros H. unfold TodoDeleteView_post. now rewrite (get_object_Some _ _ _ H).
Qed.

End Handlers.

(** ** The steps of the table *)

Lemma dispatch_step (now : datetime) (who : option user_id) (req : request) (db : DB) :
  db_step db (out_db (dispatch now who req db)).
Proof.
  destruct who as [u|]; [|destruct req; apply step_none].
  destruct req as [status prio|data|k|k data|k|k|k|k]; cbn [dispatch login_required].
  - apply step_none.
  - destruct (TodoForm_clean data (dt_date now)) as [errors|cleaned] eqn:Hc.
    + rewrite (create_invalid _ _ _ _ _ Hc). apply step_none.
    + rewrite (create_valid _ _ _ _ _ Hc). now apply (step_insert _ u).
  - apply step_none.
  - destruct (get_queryset u db !! k) as [f|] eqn:Hk.
    + destruct (TodoForm_clean data (dt_date now)) as [errors|cleaned] eqn:Hc.
      * rewrite (update_invalid _ _ _ _ _ _ _ Hk Hc). apply step_none.
      * rewrite (update_valid _ _ _ _ _ _ _ Hk Hc).
        apply get_queryset_lookup in Hk as [Hk Hu].
        now apply (step_replace _ u k f).
    + rewrite (update_missing _ _ _ _ _ Hk). apply step_none.
  - apply step_none.
  - destruct (get_queryset u db !! k) as [f|] eqn:Hk.
    + rewrite (delete_post_owner _ _ _ _ Hk).
      apply get_queryset_lookup in Hk as [Hk Hu].
      now apply (step_delete _ u k f).
    + rewrite (delete_post_missing _ _ _ Hk). apply step_none.
  - destruct (get_queryset u db !! k) as [f|] eqn:Hk.
    + rewrite (delete_owner _ _ _ _ Hk).
      apply get_queryset_lookup in Hk as [Hk Hu].
      now apply (step_delete _ u k f).
    + rewrite (delete_missing _ _ _ Hk). apply step_none.
  - destruct (get_queryset u db !! k) as [f|] eqn:Hk.
    + rewrite (toggle_owner _ _ _ _ _ Hk).
      apply get_queryset_lookup in Hk as [Hk Hu].
      now apply (step_replace _ u k f).
    + rewrite (toggle_missing _ _ _ _ Hk). apply step_none.
Qed.

(** ** The owner invariant *)

Lemma db_step_owner_invariant (db db' : DB) :
  db_step db db' -> owner_invariant db -> owner_invariant db'.
Proof.
  unfold owner_invariant.
  intros [|u f Hu|u k f f' Hk Hu Hu'|u k f Hk Hu] Hinv; cbn.
  - exact Hinv.
  - apply map_Forall_insert_2; [now rewrite Hu|exact Hinv].
  - apply map_Forall_insert_2; [now rewrite Hu'|exact Hinv].
  - now apply map_Forall_delete.
Qed.

Lemma run_owner_invariant (history : list (datetime * option user_id * request))
    (db : DB) :
  owner_invariant db -> owner_invariant (run history db).
Proof.
  revert db. induction history as [|[[now who] req] rest IH]; intros db Hinv.
  - exact Hinv.
  - cbn. apply IH. eapply db_step_owner_invariant; [apply dispatch_step|exact Hinv].
Qed.

Example sample_history_table :
  todos (run sample_history empty_db)
  = {[ 1 := mk_fields (Some 1) "Buy bread" (Some EmptyString) true 4 (Some 737995)
                      (Some sample_now) (Some sample_now) ]}.
Proof. vm_compute. reflexivity. Qed.

(** C2.  After any history of list, create, update, delete and toggle
    requests, by any users or by none, on the empty table, every row of
    the table has an owner. *)
Theorem persisted_todo_has_owner
    (history : list (datetime * option user_id * request)) :
  owner_invariant (run history empty_db).
Proof. apply run_owner_invariant. unfold owner_invariant. apply map_Forall_empty. Qed.

(** ** The list view *)

Lemma sum_ones_length {A : Type} (l : list A) :
  sum_list (map (fun _ => 1%nat) l) = length l.
Proof. induction l as [|a l IH]; cbn; [reflexivity|now rewrite IH]. Qed.

Lemma filter_length_perm {A : Type} (p : A -> bool) (l l' : list A) :
  l ≡ₚ l' -> length (List.filter p l) = length (List.filter p l').
Proof.
  induction 1 as [|x l l' _ IH|x y l|l l' l'' _ IH _ IH']; cbn.
  - reflexivity.
  - destruct (p x); cbn; congruence.
  - destruct (p x), (p y); reflexivity.
  - congruence.
Qed.

(** The generator expression of [overdue_count] counts the overdue rows of
    the query set. *)
Lemma count_overdue_size (m : gmap Z TodoFields) (today : date) :
  count_overdue m today = count_rows (fun f => is_overdue f today = true) m.
Proof.
  unfold count_overdue, count_rows. rewrite sum_ones_length.
  induction m as [|k f m Hk IH] using map_ind.
  - now rewrite map_to_list_empty, map_filter_empty, map_size_empty.
  - rewrite (filter_length_perm _ _ _ (map_to_list_insert m k f Hk)). cbn.
    destruct (is_overdue f today) eqn:Ho.
    + rewrite map_filter_insert_True by exact Ho.
      rewrite map_size_insert_None by (now rewrite map_lookup_filter_None; left).
      cbn. now rewrite IH.
    + rewrite map_filter_insert_False by (cbn; congruence).
      rewrite delete_id by exact Hk. exact IH.
Qed.

Lemma isdecimal_isdigit (s : string) : Py.isdecimal s = true -> Py.isdigit s = true.
Proof.
  unfold Py.isdecimal, Py.isdigit. destruct (Py.truthy s); [cbn|discriminate].
  induction s as [|c s IH]; [reflexivity|]. cbn.
  unfold Py.is_digit_char. destruct (Py.is_decimal_char c); [cbn|discriminate].
  exact IH.
Qed.

Lemma size_filter_filter (P Q R : Z * TodoFields -> Prop)
    `{!forall x, Decision (P x)} `{!forall x, Decision (Q x)}
    `{!forall x, Decision (R x)} (m : gmap Z TodoFields) :
  (forall kr, R kr <-> P kr /\ Q kr) ->
  size (filter Q (filter P m)) = size (filter R m).
Proof.
  intros HR. f_equal. rewrite map_filter_filter.
  apply map_filter_ext. intros k f _. rewrite HR. tauto.
Qed.

Lemma status_queryset_lookup (status : string) (m : gmap Z TodoFields)
    (k : Z) (f : TodoFields) :
  status_queryset status m !! k = Some f <->
  m !! k = Some f
  /\ (status = "active" -> completed f = false)
  /\ (status = "completed" -> completed f = true).
Proof.
  unfold status_queryset.
  destruct (String.eqb_spec status "active") as [->|Ha].
  - rewrite map_lookup_filter_Some. unfold is_completed. cbn.
    intuition (discriminate || auto).
  - destruct (String.eqb_spec status "completed") as [->|Hc].
    + rewrite map_lookup_filter_Some. unfold is_completed. cbn.
      intuition (discriminate || auto).
    + intuition (congruence || auto).
Qed.

(** *** Numerals *)

Lemma digits_value_acc (d : Decimal.uint) (acc : positive) :
  Py.digits_value (Z.pos acc) (NilEmpty.string_of_uint d)
  = Z.pos (Pos.of_uint_acc d acc).
Proof.
  revert acc. induction d as [|d IH|d IH|d IH|d IH|d IH|d IH|d IH|d IH|d IH|d IH];
    intros acc; [reflexivity|..];
    cbn [NilEmpty.string_of_uint Py.digits_value Pos.of_uint_acc];
    rewrite <- IH; f_equal; vm_compute (Z.of_nat (nat_of_ascii _)); lia.
Qed.

Lemma digits_value_of_uint (d : Decimal.uint) :
  Py.digits_value 0 (NilEmpty.string_of_uint d) = Z.of_uint d.
Proof.
  unfold Z.of_uint.
  induction d as [|d IH|d IH|d IH|d IH|d IH|d IH|d IH|d IH|d IH|d IH];
    [reflexivity|exact IH|..];
    cbn [NilEmpty.string_of_uint Py.digits_value Pos.of_uint Z.of_N];
    rewrite <- digits_value_acc; f_equal.
Qed.

Lemma all_decimal_string_of_uint (d : Decimal.uint) :
  Py.all_chars Py.is_decimal_char (NilEmpty.string_of_uint d) = true.
Proof. induction d; cbn [NilEmpty.string_of_uint Py.all_chars]; auto. Qed.

Lemma all_decimal_uint_of_string (s : string) :
  Py.all_chars Py.is_decimal_char s = true ->
  exists d, NilEmpty.uint_of_string s = Some d.
Proof.
  induction s as [|c s IH]; [now exists Decimal.Nil|].
  cbn [Py.all_chars NilEmpty.uint_of_string]. intros H.
  apply andb_prop in H as [Hc Hs]. destruct (IH Hs) as [d ->].
  destruct c as [[|] [|] [|] [|] [|] [|] [|] [|]];
    vm_compute in Hc; try discriminate Hc; eexists; reflexivity.
Qed.

(** A string denotes a number exactly when it is a decimal numeral for
    [isdecimal], and the number is the one [int()] computes. *)
Lemma denotes_iff (s : string) (n : Z) :
  denotes s n <-> Py.isdecimal s = true /\ Py.digits_value 0 s = n.
Proof.
  unfold denotes, Py.isdecimal. split.
  - intros (Hne & d & Hd & <-). apply NilEmpty.sus in Hd. subst s.
    rewrite all_decimal_string_of_uint, digits_value_of_uint.
    split; [|reflexivity]. destruct (NilEmpty.string_of_uint d); [congruence|reflexivity].
  - intros [H <-]. apply andb_prop in H as [Ht Hall].
    destruct (all_decimal_uint_of_string s Hall) as [d Hd].
    split; [now destruct s|]. exists d. split; [exact Hd|].
    apply NilEmpty.sus in Hd. subst s. symmetry. apply digits_value_of_uint.
Qed.

Lemma decimal_prefix_le (s : string) : (Py.decimal_prefix s <= String.length s)%nat.
Proof.
  induction s as [|c s IH]; cbn; [lia|]. destruct (Py.is_decimal_char c); lia.
Qed.

Lemma decimal_prefix_all (s : string) :
  Py.all_chars Py.is_decimal_char s = true -> Py.decimal_prefix s = String.length s.
Proof.
  induction s as [|c s IH]; cbn; [reflexivity|].
  destruct (Py.is_decimal_char c); [|discriminate]. cbn. intros H. now rewrite IH.
Qed.

(** [int()] on a string: the value of a decimal numeral of at most 4300
    digits, and a [ValueError] for any other string. *)
Lemma py_int_cases (s : string) :
  (Py.isdecimal s = true /\ Py.len s <= int_max_str_digits
   /\ py_int s = inr (Py.digits_value 0 s))
  \/ ((Py.isdecimal s = false \/ int_max_str_digits < Py.len s)
      /\ exists message, py_int s = inl (ValueError message)).
Proof.
  unfold py_int, raise, ret, Py.len.
  pose proof (decimal_prefix_le s) as Hle.
  destruct (Z.ltb_spec int_max_str_digits (Z.of_nat (Py.decimal_prefix s))) as [Hlim|Hlim].
  - right. split; [right; lia|]. now eexists.
  - destruct (Py.isdecimal s) eqn:Hdec.
    + left. split; [reflexivity|]. split; [|reflexivity].
      unfold Py.isdecimal in Hdec. apply andb_prop in Hdec as [_ Hall].
      rewrite <- (decimal_prefix_all s Hall). exact Hlim.
    + right. split; [now left|]. now eexists.
Qed.

(** [get_context_data], with its ways out spelled out. *)
Lemma get_context_data_eq (now : datetime) (u : user_id)
    (GET_status GET_priority : option string) (db : DB) :
  let user_todos := get_queryset u db in
  let status := default "all" GET_status in
  let prio := default EmptyString GET_priority in
  let context queryset :=
    mk_list_context queryset (size user_todos)
      (size (filter (is_completed false) user_todos))
      (size (filter (is_completed true) user_todos))
      (count_overdue user_todos (dt_date now)) status prio in
  get_context_data now u GET_status GET_priority db =
    if Py.isdigit prio then
      match py_int prio with
      | inr p => inr (context (filter (has_priority p) (status_queryset status user_todos)))
      | inl e => inl e
      end
    else inr (context (status_queryset status user_todos)).
Proof.
  intros user_todos status prio context. unfold get_context_data.
  fold status prio. fold (get_queryset u db). fold user_todos.
  fold (status_queryset status user_todos).
  assert (Py.truthy prio && Py.isdigit prio = Py.isdigit prio) as ->.
  { unfold Py.isdigit. now destruct (Py.truthy prio). }
  destruct (Py.isdigit prio); [|reflexivity].
  destruct (py_int prio); reflexivity.
Qed.

(** X20.  A list request either is refused by [int()] (a priority
    parameter of digit characters that is no decimal numeral, or one of
    more than 4300 digits) or yields a context in which the four counts
    are taken over all tasks of the caller, whatever the status and
    priority filters, and the displayed tasks are exactly the caller's
    tasks that pass the requested filters: the status, and the priority
    that a decimal numeral denotes. *)
Theorem list_counts_unfiltered (now : datetime) (u : user_id)
    (GET_status GET_priority : option string) (db : DB) :
  let status := default "all" GET_status in
  let prio := default EmptyString GET_priority in
  match get_context_data now u GET_status GET_priority db with
  | inr ctx =>
      (Py.isdigit prio = false
       \/ (Py.isdecimal prio = true /\ Py.len prio <= 4300))
      /\ current_filter ctx = status /\ priority_filter ctx = prio
      /\ list_context_ok (dt_date now) u status prio db ctx
  | inl e =>
      Py.isdigit prio = true /\ (Py.isdecimal prio = false \/ 4300 < Py.len prio)
  end.
Proof.
  intros status prio. rewrite get_context_data_eq. cbv zeta. fold status prio.
  assert (Hcounts : forall qs,
    list_context_ok (dt_date now) u status prio db
      (mk_list_context qs
         (size (get_queryset u db))
         (size (filter (is_completed false) (get_queryset u db)))
         (size (filter (is_completed true) (get_queryset u db)))
         (count_overdue (get_queryset u db) (dt_date now))
         status prio)
    <-> forall k f, qs !! k = Some f <->
          todos db !! k = Some f /\ user f = Some u /\ matches_filters status prio f).
  { intros qs. unfold list_context_ok, get_queryset. cbn.
    rewrite count_overdue_size.
    split; [now intros (_ & _ & _ & _ & H)|]. intros H.
    split; [reflexivity|].
    unfold count_rows.
    repeat (split; [now apply size_filter_filter|]).
    exact H. }
  destruct (Py.isdigit prio) eqn:Hd.
  - destruct (py_int_cases prio) as [(Hdec & Hlen & ->)|(Hbad & message & ->)].
    + split; [right; split; assumption|]. split; [reflexivity|]. split; [reflexivity|].
      apply Hcounts. intros k f.
      rewrite map_lookup_filter_Some, status_queryset_lookup.
      unfold get_queryset. rewrite map_lookup_filter_Some.
      unfold matches_filters, has_priority, owned_by. cbn.
      assert (Hden : (forall n, denotes prio n -> priority f = n)
                     <-> priority f = Py.digits_value 0 prio).
      { split.
        - intros H. apply H. now apply denotes_iff.
        - intros -> n Hn. apply denotes_iff in Hn as [_ <-]. reflexivity. }
      rewrite Hden. tauto.
    + split; [reflexivity|exact Hbad].
  - split; [now left|]. split; [reflexivity|]. split; [reflexivity|].
    apply Hcounts. intros k f.
    rewrite status_queryset_lookup. unfold get_queryset. rewrite map_lookup_filter_Some.
    unfold matches_filters, owned_by. cbn.
    assert (Hno : forall n, denotes prio n -> priority f = n).
    { intros n Hn. apply denotes_iff in Hn as [Hdec _].
      apply isdecimal_isdigit in Hdec. congruence. }
    tauto.
Qed.

Example numerals_denote :
  denotes "3" 3 /\ denotes "05" 5 /\ denotes "12" 12 /\ ~ denotes superscript_two 2.
Proof.
  repeat split; try discriminate; try (eexists; split; reflexivity).
  intros (_ & d & Hd & _). vm_compute in Hd. discriminate.
Qed.

(** C9.  A list request whose priority parameter is the superscript two, a
    digit for [isdigit] that [int()] refuses: the view raises [ValueError]
    and shows neither counts nor a list, for every user, status and
    table. *)
Theorem list_view_raises_on_superscript_priority (now : datetime) (u : user_id)
    (GET_status : option string) (db : DB) :
  Py.isdigit superscript_two = true
  /\ get_context_data now u GET_status (Some superscript_two) db
     = inl (ValueError ("invalid literal for int() with base 10: '"
                        +:+ superscript_two +:+ "'"))
  /\ out_response (dispatch now (Some u) (GET_list GET_status (Some superscript_two)) db)
     = inl (ValueError ("invalid literal for int() with base 10: '"
                        +:+ superscript_two +:+ "'")).
Proof.
  split; [reflexivity|].
  assert (H : get_context_data now u GET_status (Some superscript_two) db
              = inl (ValueError ("invalid literal for int() with base 10: '"
                                 +:+ superscript_two +:+ "'"))).
  { rewrite get_context_data_eq. reflexivity. }
  split; [exact H|].
  cbn [dispatch login_required]. unfold TodoListView_get. cbn [out_response].
  now rewrite H.
Qed.

Example list_active_priority_3 :
  get_context_data sample_now 1 (Some "active") (Some "3") sample_db
  = inr (mk_list_context {[ 1 := sample_row ]} 1 1 0 0 "active" "3").
Proof. vm_compute. reflexivity. Qed.

Example list_completed_priority_3 :
  get_context_data sample_now 1 (Some "completed") (Some "3") sample_db
  = inr (mk_list_context ∅ 1 1 0 0 "completed" "3").
Proof. vm_compute. reflexivity. Qed.

Example list_overdue_later :
  overdue_count <$>
    (match get_context_data (mk_datetime 738001 0) 1 None (Some "5") sample_db with
     | inr ctx => Some ctx
     | inl _ => None
     end)
  = Some 1%nat.
Proof. vm_compute. reflexivity. Qed.

Example list_priority_superscript :
  Py.isdigit superscript_two = true
  /\ get_context_data sample_now 1 None (Some superscript_two) sample_db
     = inl (ValueError (msg_invalid_literal superscript_two)).
Proof. split; vm_compute; reflexivity. Qed.


(** ** Tasks of other users *)


Lemma get_context_data_queryset (now : datetime) (v : user_id)
    (GET_status GET_priority : option string) (db db' : DB) :
  get_queryset v db' = get_queryset v db ->
  get_context_data now v GET_status GET_priority db'
  = get_context_data now v GET_status GET_priority db.
Proof. unfold get_context_data, get_queryset. now intros ->. Qed.



(** ** Validation in the create and update views *)

(** C3.  Validation of the due date, in the create view and in the update
    view: the submitted date is rejected exactly when it is set and earlier
    than the date of the request, in which case the form is shown again
    with the error and nothing is saved; yesterday is rejected, today and
    any later date and an absent date are accepted. *)
Theorem due_date_validation (now : datetime) (u : user_id) (db : DB)
    (data : TodoFormData) :
  let today := dt_date now in
  let due := data_due_date data in
  let past := exists d, due = Some d /\ d < today in
  (clean_due_date due today = inl (ValidationError msg_due_date_past) <-> past)
  /\ (clean_due_date due today = inr due <-> ~ past)
  /\ clean_due_date (Some (today - 1)) today = inl (ValidationError msg_due_date_past)
  /\ clean_due_date (Some today) today = inr (Some today)
  /\ clean_due_date None today = inr None
  /\ (forall n, 0 <= n -> clean_due_date (Some (today + n)) today = inr (Some (today + n)))
  /\ ((exists errors,
         TodoCreateView_post now u data db = mk_outcome db [] (inr (RenderForm errors))
         /\ In ("due_date", ValidationError msg_due_date_past) errors)
      <-> past)
  /\ (forall k f, get_queryset u db !! k = Some f ->
        ((exists errors,
            TodoUpdateView_post now u k data db = mk_outcome db [] (inr (RenderForm errors))
            /\ In ("due_date", ValidationError msg_due_date_past) errors)
         <-> past)).
Proof.
  intros today due past.
  destruct (clean_due_date_spec due today) as (H1 & H2 & _).
  destruct (clean_due_date_spec None today) as (_ & _ & H3 & H4 & H5 & H6).
  pose proof (TodoForm_due_date_error_iff data today) as Hform.
  repeat (split; [assumption|]).
  split; [|intros k f Hk]; (split; [|intros Hpast]).
  - intros (errors & Hout & Hin). apply Hform. exists errors. split; [|exact Hin].
    destruct (TodoForm_clean data today) as [errs|cleaned] eqn:Hc.
    + rewrite (create_invalid _ _ _ _ _ Hc) in Hout. congruence.
    + rewrite (create_valid _ _ _ _ _ Hc) in Hout. discriminate.
  - apply Hform in Hpast as (errors & Hc & Hin).
    exists errors. split; [now apply create_invalid|exact Hin].
  - intros (errors & Hout & Hin). apply Hform. exists errors. split; [|exact Hin].
    destruct (TodoForm_clean data today) as [errs|cleaned] eqn:Hc.
    + rewrite (update_invalid _ _ _ _ _ _ _ Hk Hc) in Hout. congruence.
    + rewrite (update_valid _ _ _ _ _ _ _ Hk Hc) in Hout. discriminate.
  - apply Hform in Hpast as (errors & Hc & Hin).
    exists errors. split; [now apply (update_invalid _ _ _ _ f)|exact Hin].
Qed.

(** The form refuses a title exactly when, stripped, it has fewer than 3
    or more than 200 characters, or when it holds a null character. *)
Lemma title_refused_iff (data : TodoFormData) (today : date) :
  title_refused data today
  <-> Py.len (Py.strip (data_title data)) < 3
      \/ title_max_length < Py.len (Py.strip (data_title data))
      \/ Py.has_null (data_title data) = true.
Proof.
  unfold title_refused. split.
  - intros (errors & e & Hc & Hin).
    apply TodoForm_clean_errors in Hc as (-> & _).
    rewrite !in_app_iff, !field_errors_In, !field_error_list_In in Hin.
    destruct Hin as [[_ (errs & He & _)]|[[[=] _]|[[[=] _]|[[=] _]]]].
    destruct (TodoForm_clean_title_field_cases (data_title data))
      as [(_ & _ & Hv)|(Hbad & _)]; [congruence|exact Hbad].
  - intros Hbad.
    destruct (TodoForm_clean_title_field_cases (data_title data))
      as [(Hlen & Hnull & _)|(_ & errs & He & Hne)].
    { exfalso. destruct Hbad as [H|[H|H]]; [lia|lia|congruence]. }
    destruct (TodoForm_clean_cases data today) as [[Hok Hv]|(_ & errors & Hc & _ & ->)].
    { exfalso. destruct Hok as (Hlen & Hnull & _).
      destruct Hbad as [H|[H|H]]; [lia|lia|congruence]. }
    destruct errs as [|e errs]; [congruence|].
    eexists _, e. split; [exact Hc|].
    rewrite He. cbn. now left.
Qed.

(** A form with accepted values is saved by the create view. *)
Lemma create_form_ok (now : datetime) (u : user_id) (data : TodoFormData) (db : DB) :
  form_ok data (dt_date now) ->
  TodoCreateView_post now u data db =
    mk_outcome
      (mk_db (<[next_id db := created_row u (cleaned_of data) now]> (todos db))
             (next_id db + 1))
      [mk_message SUCCESS
         ("Task " +:+ dquote +:+ Py.strip (data_title data) +:+ dquote
          +:+ " created successfully!")]
      (inr (Redirect todo_list)).
Proof.
  intros Hok.
  destruct (TodoForm_clean_cases data (dt_date now)) as [[_ Hv]|[Hno _]];
    [|contradiction].
  now rewrite (create_valid _ _ _ _ _ Hv).
Qed.

(** A form with accepted values is saved by the update view, for a task
    of the requester. *)
Lemma update_form_ok (now : datetime) (u : user_id) (k : Z) (f : TodoFields)
    (data : TodoFormData) (db : DB) :
  get_queryset u db !! k = Some f ->
  form_ok data (dt_date now) ->
  TodoUpdateView_post now u k data db =
    mk_outcome
      (mk_db (<[k := updated_row f (cleaned_of data) now]> (todos db)) (next_id db))
      [mk_message SUCCESS
         ("Task " +:+ dquote +:+ Py.strip (data_title data) +:+ dquote
          +:+ " updated successfully!")]
      (inr (Redirect todo_list)).
Proof.
  intros Hk Hok.
  destruct (TodoForm_clean_cases data (dt_date now)) as [[_ Hv]|[Hno _]];
    [|contradiction].
  now rewrite (update_valid _ _ _ _ _ _ _ Hk Hv).
Qed.

(** C4, counterexample.  A title of 201 letters has 201 characters when
    stripped, not fewer than 3, and the form refuses it: it is not so that
    the form refuses a title exactly when fewer than three characters are
    left after stripping. *)
Lemma long_title_is_refused :
  Py.len (Py.strip long_title) = 201
  /\ ~ Py.len (Py.strip long_title) < 3
  /\ TodoForm_clean (mk_form_data long_title None 3 None) 737995
     = inl [("title", ValidationError (msg_max_length 200 201))]
  /\ title_refused (mk_form_data long_title None 3 None) 737995
  /\ ~ (forall data today,
          title_refused data today <-> Py.len (Py.strip (data_title data)) < 3).
Proof.
  assert (Hlen : ~ Py.len (Py.strip long_title) < 3) by (vm_compute; discriminate).
  assert (Href : title_refused (mk_form_data long_title None 3 None) 737995).
  { apply title_refused_iff. right. left. vm_compute. reflexivity. }
  split; [vm_compute; reflexivity|]. split; [exact Hlen|].
  split; [vm_compute; reflexivity|]. split; [exact Href|].
  intros H. apply Hlen. apply (H (mk_form_data long_title None 3 None) 737995).
  exact Href.
Qed.

(** C4.  Validation of the title: [clean_title] strips the white
    space around the title and rejects it exactly when fewer than three
    characters are left; the form as a whole refuses a title exactly when,
    stripped, it has fewer than 3 or more than 200 characters or when it
    holds a null character; it refuses [ab] and accepts [abc]; and when the
    form accepts the submitted values, create and update answer with the
    redirect and store the stripped title. *)
Theorem title_validation (data : TodoFormData) (today : date) :
  let s := data_title data in
  (clean_title s = inl (ValidationError msg_title_short) <-> Py.len (Py.strip s) < 3)
  /\ (clean_title s = inr (Py.strip s) <-> 3 <= Py.len (Py.strip s))
  /\ ((exists l r, s = l +:+ Py.strip s +:+ r
                   /\ Py.all_chars Py.isspace l = true
                   /\ Py.all_chars Py.isspace r = true)
      /\ head_ok (Py.strip s) /\ last_ok (Py.strip s))
  /\ (title_refused data today
      <-> Py.len (Py.strip s) < 3 \/ 200 < Py.len (Py.strip s)
          \/ Py.has_null s = true)
  /\ (forall c p d, title_refused (mk_form_data "ab" c p d) today)
  /\ (forall c p d, ~ title_refused (mk_form_data "abc" c p d) today)
  /\ (forall now u db,
        form_ok data (dt_date now) ->
        out_response (TodoCreateView_post now u data db) = inr (Redirect todo_list)
        /\ exists f,
             todos (out_db (TodoCreateView_post now u data db)) !! next_id db = Some f
             /\ title f = Py.strip s)
  /\ (forall now u db k f0,
        get_queryset u db !! k = Some f0 ->
        form_ok data (dt_date now) ->
        out_response (TodoUpdateView_post now u k data db) = inr (Redirect todo_list)
        /\ exists f,
             todos (out_db (TodoUpdateView_post now u k data db)) !! k = Some f
             /\ title f = Py.strip s).
Proof.
  intros s. destruct (clean_title_spec s) as [H1 H2].
  split; [exact H1|]. split; [exact H2|].
  split; [apply strip_trims|].
  split; [apply title_refused_iff|].
  split; [|split; [|split]].
  - intros c p d. apply title_refused_iff. left. vm_compute. reflexivity.
  - intros c p d Href. apply title_refused_iff in Href.
    vm_compute in Href. destruct Href as [H|[H|H]]; discriminate.
  - intros now u db Hok. rewrite (create_form_ok now u data db Hok).
    cbn [out_response out_db todos]. split; [reflexivity|].
    eexists. split; [apply lookup_insert_eq|reflexivity].
  - intros now u db k f0 Hk Hok. rewrite (update_form_ok now u k f0 data db Hk Hok).
    cbn [out_response out_db todos]. split; [reflexivity|].
    eexists. split; [apply lookup_insert_eq|reflexivity].
Qed.

(** A create and an update that succeed, with titles that need
    stripping. *)
Example create_stores_stripped_title :
  out_response (TodoCreateView_post sample_now 1 sample_data sample_db)
  = inr (Redirect todo_list)
  /\ title <$> todos (out_db (TodoCreateView_post sample_now 1 sample_data sample_db)) !! 2
     = Some "Buy bread".
Proof. split; vm_compute; reflexivity. Qed.

Example update_stores_stripped_title :
  out_response (TodoUpdateView_post sample_now 1 1 sample_data sample_db)
  = inr (Redirect todo_list)
  /\ title <$> todos (out_db (TodoUpdateView_post sample_now 1 1 sample_data sample_db)) !! 1
     = Some "Buy bread".
Proof. split; vm_compute; reflexivity. Qed.

(** ** Toggling *)

(** C10.  A toggle by the owner replaces the row by one that differs in
    [completed], which is negated, and in [updated_at], which is the time of
    the request: the title, description, priority, due date, creation time
    and owner stay as they were, and so do all other rows and the key
    sequence. *)
Theorem toggle_changes_only_completed (now : datetime) (u : user_id) (k : Z)
    (f : TodoFields) (db : DB) :
  todos db !! k = Some f -> user f = Some u ->
  let db' := out_db (toggle_completion now u k db) in
  out_response (toggle_completion now u k db) = inr (Redirect todo_list)
  /\ (exists f', todos db' !! k = Some f'
        /\ completed f' = negb (completed f)
        /\ updated_at f' = Some now
        /\ title f' = title f
        /\ description f' = description f
        /\ priority f' = priority f
        /\ due_date f' = due_date f
        /\ created_at f' = created_at f
        /\ user f' = user f)
  /\ (forall k', k' <> k -> todos db' !! k' = todos db !! k')
  /\ next_id db' = next_id db.
Proof.
  intros Hk Hu db'. subst db'.
  rewrite (toggle_owner now u db k f) by (now apply get_queryset_lookup).
  cbn. split; [reflexivity|]. split; [|split; [|reflexivity]].
  - exists (toggled_row f now). rewrite lookup_insert_eq. now repeat split.
  - intros k' Hk'. now apply lookup_insert_ne.
Qed.

Lemma toggle_changes_only_completed_witness :
  exists f', todos (out_db (toggle_completion sample_now 1 1 sample_db)) !! 1 = Some f'
             /\ completed f' = true /\ title f' = "Buy milk".
Proof.
  destruct (toggle_changes_only_completed sample_now 1 1 sample_row sample_db
              eq_refl eq_refl) as (_ & (f' & Hf' & Hc & _ & Ht & _) & _).
  exists f'. split; [exact Hf'|]. split; [exact Hc|exact Ht].
Defined.

(** C7.  Two toggles in a row by the owner, at any two times, both
    succeed; the first negates [completed] and the second brings it back
    to what it was. *)
Theorem toggle_twice_restores_completed (now1 now2 : datetime) (u : user_id) (k : Z)
    (f : TodoFields) (db : DB) :
  todos db !! k = Some f -> user f = Some u ->
  let once := toggle_completion now1 u k db in
  let twice := toggle_completion now2 u k (out_db once) in
  out_response once = inr (Redirect todo_list)
  /\ out_response twice = inr (Redirect todo_list)
  /\ completed <$> todos (out_db once) !! k = Some (negb (completed f))
  /\ completed <$> todos (out_db twice) !! k = Some (completed f)
  /\ todos (out_db twice) = <[k := set_updated_at (Some now2) f]> (todos db).
Proof.
  intros Hk Hu once twice. subst once twice.
  rewrite (toggle_owner now1 u db k f) by (now apply get_queryset_lookup).
  cbn [out_db out_response].
  rewrite (toggle_owner now2 u _ k (toggled_row f now1))
    by (apply get_queryset_lookup; cbn; split; [apply lookup_insert_eq|exact Hu]).
  cbn [out_db out_response todos].
  rewrite insert_insert_eq, !lookup_insert_eq. cbn.
  rewrite !negb_involutive. repeat split.
  f_equal. unfold toggled_row, set_updated_at. cbn. now rewrite negb_involutive.
Qed.

Lemma toggle_twice_restores_completed_witness :
  completed <$>
    todos (out_db (toggle_completion sample_now 1 1
                     (out_db (toggle_completion sample_now 1 1 sample_db)))) !! 1
  = Some false.
Proof.
  destruct (toggle_twice_restores_completed sample_now sample_now 1 1 sample_row
              sample_db eq_refl eq_refl) as (_ & _ & _ & H & _).
  exact H.
Defined.

(** ** Deleting *)

(** The three messages of the failure paths differ. *)
Lemma delete_messages_distinct :
  msg_not_found <> msg_no_permission
  /\ msg_not_found <> msg_unexpected
  /\ msg_no_permission <> msg_unexpected.
Proof. repeat split; discriminate. Qed.

(** [delete] has two outcomes: the row is the caller's and is deleted, or
    the lookup misses and the [Http404] it raises is caught by the last
    clause. *)
Lemma delete_outcomes (u : user_id) (k : Z) (db : DB) :
  (exists f, todos db !! k = Some f /\ user f = Some u
             /\ TodoDeleteView_delete u k db =
                  mk_outcome (without k db)
                    [mk_message SUCCESS
                       ("Task " +:+ dquote +:+ title f +:+ dquote
                        +:+ " has been deleted successfully!")]
                    (inr (Redirect todo_list)))
  \/ (get_queryset u db !! k = None
      /\ TodoDeleteView_delete u k db =
           mk_outcome db [mk_message ERROR msg_unexpected] (inr (Redirect todo_list))).
Proof.
  destruct (get_queryset u db !! k) as [f|] eqn:Hk.
  - left. exists f. rewrite (delete_owner _ _ _ _ Hk).
    apply get_queryset_lookup in Hk as [Hk Hu]. now repeat split.
  - right. split; [reflexivity|]. now apply delete_missing.
Qed.


(** The clause for [Todo.DoesNotExist] and the ownership check are never
    reached: no request is answered with their messages. *)
Lemma delete_never_not_found (u : user_id) (k : Z) (db : DB) :
  ~ In (mk_message ERROR msg_not_found) (out_messages (TodoDeleteView_delete u k db))
  /\ ~ In (mk_message ERROR msg_no_permission)
          (out_messages (TodoDeleteView_delete u k db)).
Proof.
  destruct (delete_outcomes u k db) as [(f & _ & _ & ->)|[_ ->]]; cbn;
    split; intros [[=]|[]].
Qed.

(** C8.  The owner deletes a task that does not exist, and deletes the
    sample task a second time: both requests are answered with the message
    for an unexpected error, not with the one for a task that is not
    found. *)
Theorem delete_missing_reports_unexpected_error :
  TodoDeleteView_delete 1 7 sample_db
  = mk_outcome sample_db [mk_message ERROR msg_unexpected] (inr (Redirect todo_list))
  /\ todos sample_deleted_db !! 1 = None
  /\ TodoDeleteView_delete 1 1 sample_deleted_db
     = mk_outcome sample_deleted_db [mk_message ERROR msg_unexpected]
         (inr (Redirect todo_list))
  /\ mk_message ERROR msg_unexpected <> mk_message ERROR msg_not_found.
Proof.
  split; [|split; [|split]].
  - apply delete_missing. vm_compute. reflexivity.
  - vm_compute. reflexivity.
  - apply delete_missing. vm_compute. reflexivity.
  - discriminate.
Qed.

(** * Further properties of the handlers *)

(** ** One request *)

Lemma dispatch_change (now : datetime) (who : option user_id) (req : request) (db : DB) :
  change who db (out_db (dispatch now who req db)).
Proof.
  destruct who as [u|]; [|destruct req; apply change_none].
  destruct req as [status prio|data|k|k data|k|k|k|k]; cbn [dispatch login_required].
  - apply change_none.
  - destruct (TodoForm_clean data (dt_date now)) as [errors|cleaned] eqn:Hc.
    + rewrite (create_invalid _ _ _ _ _ Hc). apply change_none.
    + rewrite (create_valid _ _ _ _ _ Hc). now apply (change_create _ _ u data).
  - apply change_none.
  - destruct (get_queryset u db !! k) as [f|] eqn:Hk.
    + destruct (TodoForm_clean data (dt_date now)) as [errors|cleaned] eqn:Hc.
      * rewrite (update_invalid _ _ _ _ _ _ _ Hk Hc). apply change_none.
      * rewrite (update_valid _ _ _ _ _ _ _ Hk Hc).
        apply get_queryset_lookup in Hk as [Hk Hu].
        now apply (change_update _ _ u k f data).
    + rewrite (update_missing _ _ _ _ _ Hk). apply change_none.
  - apply change_none.
  - destruct (get_queryset u db !! k) as [f|] eqn:Hk.
    + rewrite (delete_post_owner _ _ _ _ Hk).
      apply get_queryset_lookup in Hk as [Hk Hu].
      now apply (change_delete _ _ u k f).
    + rewrite (delete_post_missing _ _ _ Hk). apply change_none.
  - destruct (get_queryset u db !! k) as [f|] eqn:Hk.
    + rewrite (delete_owner _ _ _ _ Hk).
      apply get_queryset_lookup in Hk as [Hk Hu].
      now apply (change_delete _ _ u k f).
    + rewrite (delete_missing _ _ _ Hk). apply change_none.
  - destruct (get_queryset u db !! k) as [f|] eqn:Hk.
    + rewrite (toggle_owner _ _ _ _ _ Hk).
      apply get_queryset_lookup in Hk as [Hk Hu].
      now apply (change_toggle _ _ u k f).
    + rewrite (toggle_missing _ _ _ _ Hk). apply change_none.
Qed.

Lemma fresh_lookup_lt (db : DB) (k : Z) (f : TodoFields) :
  next_id_fresh db -> todos db !! k = Some f -> k < next_id db.
Proof.
  intros Hfresh Hk. destruct (Z_lt_dec k (next_id db)) as [|Hge]; [assumption|].
  rewrite Hfresh in Hk by lia. discriminate.
Qed.

Lemma change_fresh (who : option user_id) (db db' : DB) :
  change who db db' -> next_id_fresh db -> next_id_fresh db'.
Proof.
  unfold next_id_fresh.
  intros [|u data cleaned now _ _|u k f data cleaned now _ Hk _ _
          |u k f now _ Hk _|u k f _ Hk _] Hfresh k' Hk'; cbn in *.
  - now apply Hfresh.
  - rewrite lookup_insert_ne by lia. apply Hfresh. lia.
  - pose proof (fresh_lookup_lt db k f Hfresh Hk).
    rewrite lookup_insert_ne by lia. now apply Hfresh.
  - pose proof (fresh_lookup_lt db k f Hfresh Hk).
    rewrite lookup_insert_ne by lia. now apply Hfresh.
  - pose proof (fresh_lookup_lt db k f Hfresh Hk).
    rewrite lookup_delete_ne by lia. now apply Hfresh.
Qed.

Lemma change_next_id (who : option user_id) (db db' : DB) :
  change who db db' -> next_id db <= next_id db'.
Proof. intros []; cbn; lia. Qed.

Lemma run_fresh (history : list (datetime * option user_id * request)) (db : DB) :
  next_id_fresh db -> next_id_fresh (run history db).
Proof.
  revert db. induction history as [|[[now who] req] rest IH]; intros db Hfresh.
  - exact Hfresh.
  - cbn. apply IH. eapply change_fresh; [apply dispatch_change|exact Hfresh].
Qed.

Lemma empty_db_fresh : next_id_fresh empty_db.
Proof. intros k _. apply lookup_empty. Qed.

Lemma sample_db_fresh : next_id_fresh sample_db.
Proof. intros k Hk. cbn in *. apply lookup_singleton_ne. lia. Defined.

Lemma sample_data_ok : form_ok sample_data (dt_date sample_now).
Proof.
  unfold form_ok. split; [|split; [|split; [|split]]].
  - vm_compute. split; intro; discriminate.
  - reflexivity.
  - reflexivity.
  - cbn. lia.
  - intros d [= <-]. cbn. lia.
Defined.

(** X1.  A create with values the form accepts, on a table whose next key
    is free, answers with the redirect and adds one task under that key: it
    belongs to the requester, is not completed, carries the stripped title,
    the stripped description (empty when none was sent), the submitted
    priority and due date, and both time stamps are the time of the
    request; every task that was there is still there, unchanged. *)
Theorem create_adds_one_task (now : datetime) (u : user_id) (data : TodoFormData)
    (db : DB) :
  next_id_fresh db ->
  form_ok data (dt_date now) ->
  let db' := out_db (TodoCreateView_post now u data db) in
  out_response (TodoCreateView_post now u data db) = inr (Redirect todo_list)
  /\ (exists f, todos db' !! next_id db = Some f
     /\ user f = Some u /\ completed f = false
     /\ title f = Py.strip (data_title data)
     /\ description f
        = Some (Py.strip (default EmptyString (data_description data)))
     /\ priority f = data_priority data
     /\ due_date f = data_due_date data
     /\ created_at f = Some now /\ updated_at f = Some now)
  /\ todos db !! next_id db = None
  /\ (forall k, k <> next_id db -> todos db' !! k = todos db !! k)
  /\ size (todos db') = S (size (todos db))
  /\ next_id db' = next_id db + 1.
Proof.
  intros Hfresh Hok db'. subst db'.
  rewrite (create_form_ok now u data db Hok). cbn [out_db out_response todos next_id].
  assert (Hnone : todos db !! next_id db = None) by (apply Hfresh; lia).
  split; [reflexivity|].
  split; [|split; [exact Hnone|split; [|split; [|reflexivity]]]].
  - exists (created_row u (cleaned_of data) now). rewrite lookup_insert_eq.
    now repeat split.
  - intros k Hk. now apply lookup_insert_ne.
  - now apply map_size_insert_None.
Qed.

Lemma create_adds_one_task_witness :
  size (todos (out_db (TodoCreateView_post sample_now 1 sample_data sample_db))) = 2%nat.
Proof.
  destruct (create_adds_one_task sample_now 1 sample_data sample_db sample_db_fresh
              sample_data_ok) as (_ & _ & _ & _ & H & _).
  exact H.
Defined.

(** X2.  An update of a task of the requester with values the form accepts
    answers with the redirect and replaces that task: the owner, the
    completion flag and the creation time stay, the title and the
    description are stored stripped (the description empty when none was
    sent), the priority and the due date as submitted, [updated_at] is the
    time of the request, and no other task and no key changes. *)
Theorem update_keeps_owner_and_completion (now : datetime) (u : user_id) (k : Z)
    (f : TodoFields) (data : TodoFormData) (db : DB) :
  get_queryset u db !! k = Some f ->
  form_ok data (dt_date now) ->
  let db' := out_db (TodoUpdateView_post now u k data db) in
  out_response (TodoUpdateView_post now u k data db) = inr (Redirect todo_list)
  /\ (exists f', todos db' !! k = Some f'
     /\ user f' = user f /\ completed f' = completed f
     /\ created_at f' = created_at f /\ updated_at f' = Some now
     /\ title f' = Py.strip (data_title data)
     /\ description f'
        = Some (Py.strip (default EmptyString (data_description data)))
     /\ priority f' = data_priority data
     /\ due_date f' = data_due_date data)
  /\ (forall k', k' <> k -> todos db' !! k' = todos db !! k')
  /\ next_id db' = next_id db.
Proof.
  intros Hk Hok db'. subst db'.
  rewrite (update_form_ok now u k f data db Hk Hok).
  cbn [out_db out_response todos next_id].
  split; [reflexivity|]. split; [|split; [|reflexivity]].
  - exists (updated_row f (cleaned_of data) now). rewrite lookup_insert_eq.
    now repeat split.
  - intros k' Hk'. now apply lookup_insert_ne.
Qed.

Lemma update_keeps_owner_and_completion_witness :
  exists f', todos (out_db (TodoUpdateView_post sample_now 1 1 sample_data sample_db)) !! 1
             = Some f'
             /\ user f' = Some 1 /\ title f' = "Buy bread"
             /\ description f' = Some EmptyString.
Proof.
  destruct (update_keeps_owner_and_completion sample_now 1 1 sample_row sample_data
              sample_db eq_refl sample_data_ok)
    as (_ & (f' & Hf' & Hu & _ & _ & _ & Ht & Hd & _) & _).
  exists f'. split; [exact Hf'|]. split; [exact Hu|]. split; [exact Ht|exact Hd].
Defined.

(** ** The form as a whole *)

(** X3.  [TodoForm] is valid exactly when the stripped title has 3 to 200
    characters, neither the title nor the description holds a null
    character, the priority is between 1 and 5 and the due date, if any,
    is not before today; the cleaned data are then the stripped title, the
    stripped description (the empty string when none was sent) and the
    submitted priority and due date.  Otherwise the form has at least one
    error. *)
Theorem TodoForm_valid_iff (data : TodoFormData) (today : date) :
  let ok :=
    3 <= Py.len (Py.strip (data_title data)) <= 200
    /\ Py.has_null (data_title data) = false
    /\ Py.has_null (default EmptyString (data_description data)) = false
    /\ 1 <= data_priority data <= 5
    /\ (forall d, data_due_date data = Some d -> today <= d) in
  (TodoForm_clean data today
   = inr (mk_form_data (Py.strip (data_title data))
            (Some (Py.strip (default EmptyString (data_description data))))
            (data_priority data) (data_due_date data))
   <-> ok)
  /\ ((exists cleaned, TodoForm_clean data today = inr cleaned) <-> ok)
  /\ ((exists errors, TodoForm_clean data today = inl errors /\ errors <> [])
      <-> ~ ok).
Proof.
  intros ok. change ok with (form_ok data today).
  change (mk_form_data (Py.strip (data_title data))
            (Some (Py.strip (default EmptyString (data_description data))))
            (data_priority data) (data_due_date data)) with (cleaned_of data).
  destruct (TodoForm_clean_cases data today)
    as [[Hok ->]|(Hno & errors & -> & Hne & _)].
  - split; [|split].
    + split; [intros _; exact Hok|reflexivity].
    + split; [intros _; exact Hok|intros _; now eexists].
    + split; [intros (errs & [=] & _)|contradiction].
  - split; [|split].
    + split; [discriminate|contradiction].
    + split; [intros (cleaned & [=])|contradiction].
    + split; [intros _; exact Hno|intros _; now exists errors].
Qed.

(** X4.  Values the form refuses are never saved: create shows the form
    again with its errors, update by the owner does so too, and in both
    cases the table is as before and no flash message is added. *)
Theorem invalid_form_saves_nothing (now : datetime) (u : user_id) (k : Z)
    (data : TodoFormData) (db : DB) :
  ~ form_ok data (dt_date now) ->
  (exists errors, errors <> []
     /\ TodoCreateView_post now u data db = mk_outcome db [] (inr (RenderForm errors)))
  /\ out_db (TodoUpdateView_post now u k data db) = db
  /\ out_messages (TodoUpdateView_post now u k data db) = []
  /\ (is_Some (get_queryset u db !! k) ->
      exists errors, errors <> []
        /\ out_response (TodoUpdateView_post now u k data db) = inr (RenderForm errors)).
Proof.
  intros Hno.
  destruct (TodoForm_clean data (dt_date now)) as [errors|cleaned] eqn:Hc.
  2:{ exfalso. apply Hno. now apply TodoForm_clean_valid in Hc as [Hok _]. }
  pose proof (TodoForm_clean_errors _ _ _ Hc) as (_ & Hne & _).
  split; [exists errors; split; [exact Hne|now apply create_invalid]|].
  destruct (get_queryset u db !! k) as [f|] eqn:Hk.
  - rewrite (update_invalid _ _ _ _ _ _ _ Hk Hc). cbn.
    repeat split. intros _. now exists errors.
  - rewrite (update_missing _ _ _ _ _ Hk). cbn.
    repeat split. intros [? [=]].
Qed.

Lemma invalid_form_saves_nothing_witness :
  out_db (TodoUpdateView_post sample_now 1 1 (mk_form_data "ok" None 9 None) sample_db)
  = sample_db.
Proof.
  refine (proj1 (proj2 (invalid_form_saves_nothing sample_now 1 1
                          (mk_form_data "ok" None 9 None) sample_db _))).
  intros (Hlen & _). vm_compute in Hlen. destruct Hlen as [Hlen _].
  apply Hlen. reflexivity.
Defined.

(** ** After a deletion *)



(** ** Histories of requests *)

Lemma change_other_user (who : option user_id) (u : user_id) (db db' : DB) :
  change who db db' -> who <> Some u -> next_id_fresh db ->
  get_queryset u db' = get_queryset u db.
Proof.
  unfold get_queryset.
  intros [|v data cleaned now -> _|v k f data cleaned now -> Hk Hv _
          |v k f now -> Hk Hv|v k f -> Hk Hv] Hwho Hfresh; cbn.
  - reflexivity.
  - apply map_filter_insert_not'.
    + unfold owned_by. cbn. congruence.
    + intros y Hy. rewrite Hfresh in Hy by lia. discriminate.
  - apply map_filter_insert_not'.
    + unfold owned_by. cbn. congruence.
    + intros y Hy. unfold owned_by. cbn. congruence.
  - apply map_filter_insert_not'.
    + unfold owned_by. cbn. congruence.
    + intros y Hy. unfold owned_by. cbn. congruence.
  - apply map_filter_delete_not.
    intros y Hy. unfold owned_by. cbn. congruence.
Qed.

(** X6.  Requests of other users, and of visitors who are not logged in,
    never change what a user has: after any history in which user [u]
    makes no request, the tasks of [u] are the same rows under the same
    keys, and so is every list page of [u]. *)
Theorem other_users_requests_leave_tasks (u : user_id)
    (history : list (datetime * option user_id * request)) (db : DB) :
  next_id_fresh db ->
  Forall (fun e => e.1.2 <> Some u) history ->
  get_queryset u (run history db) = get_queryset u db
  /\ (forall now GET_status GET_priority,
        get_context_data now u GET_status GET_priority (run history db)
        = get_context_data now u GET_status GET_priority db).
Proof.
  intros Hfresh Hall.
  assert (Hq : get_queryset u (run history db) = get_queryset u db).
  { revert db Hfresh. induction Hall as [|[[now who] req] rest Hwho _ IH];
      intros db Hfresh; [reflexivity|].
    cbn [run]. pose proof (dispatch_change now who req db) as Hch.
    rewrite IH by (eapply change_fresh; eassumption).
    eapply change_other_user; eassumption. }
  split; [exact Hq|]. intros now st pr. now apply get_context_data_queryset.
Qed.

Lemma other_users_requests_leave_tasks_witness :
  get_queryset 1 (run sample_history_2 sample_db) = get_queryset 1 sample_db.
Proof.
  refine (proj1 (other_users_requests_leave_tasks 1 sample_history_2 sample_db
                   sample_db_fresh _)).
  repeat constructor; discriminate.
Defined.

Lemma change_wellformed (who : option user_id) (db db' : DB) :
  change who db db' ->
  map_Forall (fun _ f => row_wellformed f) (todos db) ->
  map_Forall (fun _ f => row_wellformed f) (todos db').
Proof.
  intros [|u data cleaned now _ Hc|u k f data cleaned now _ Hk Hu Hc
          |u k f now _ Hk Hu|u k f _ Hk Hu] Hall; cbn.
  - exact Hall.
  - apply map_Forall_insert_2; [|exact Hall].
    apply TodoForm_clean_valid in Hc as [(Hlen & _ & _ & Hprio & _) ->].
    unfold row_wellformed, created_row, cleaned_of.
    cbn [title priority user created_at updated_at data_title data_priority].
    rewrite strip_idemp. eauto 10.
  - apply map_Forall_insert_2; [|exact Hall].
    apply TodoForm_clean_valid in Hc as [(Hlen & _ & _ & Hprio & _) ->].
    destruct (Hall k f Hk) as (_ & _ & _ & Huser & Hcreated & _).
    unfold row_wellformed, updated_row, cleaned_of.
    cbn [title priority user created_at updated_at data_title data_priority].
    rewrite strip_idemp. eauto 10.
  - apply map_Forall_insert_2; [|exact Hall].
    destruct (Hall k f Hk) as (Hs & Hlen & Hprio & Huser & Hcreated & _).
    unfold row_wellformed, toggled_row.
    cbn [title priority user created_at updated_at]. eauto 10.
  - now apply map_Forall_delete.
Qed.

(** X7.  Every task the handlers ever store is well formed: after any
    history on the empty table each row has a stripped title of 3 to 200
    characters, a priority between 1 and 5, an owner and both time
    stamps. *)
Theorem stored_tasks_are_wellformed
    (history : list (datetime * option user_id * request)) :
  map_Forall (fun _ f => row_wellformed f) (todos (run history empty_db)).
Proof.
  assert (H : forall db, map_Forall (fun _ f => row_wellformed f) (todos db) ->
                         map_Forall (fun _ f => row_wellformed f) (todos (run history db))).
  { induction history as [|[[now who] req] rest IH]; intros db Hall; [exact Hall|].
    cbn. apply IH. eapply change_wellformed; [apply dispatch_change|exact Hall]. }
  apply H. apply map_Forall_empty.
Qed.

Lemma dispatch_read_only (now : datetime) (who : option user_id) (req : request)
    (db : DB) :
  who = None \/ is_read_only req = true ->
  out_db (dispatch now who req db) = db /\ out_messages (dispatch now who req db) = [].
Proof.
  intros [->|Hro].
  - destruct req; now split.
  - destruct who as [u|]; destruct req; try discriminate; now split.
Qed.

(** X8.  Requests that only read (the list, the update form, the delete
    confirmation) and requests of visitors who are not logged in leave the
    table as it is and add no flash message, however many of them are
    made. *)
Theorem reading_changes_nothing
    (history : list (datetime * option user_id * request)) (db : DB) :
  Forall (fun e => e.1.2 = None \/ is_read_only e.2 = true) history ->
  run history db = db
  /\ Forall (fun e => out_messages (dispatch e.1.1 e.1.2 e.2 db) = []) history.
Proof.
  induction 1 as [|[[now who] req] rest Hro _ [IH1 IH2]]; [now split|].
  cbn in Hro. destruct (dispatch_read_only now who req db Hro) as [Hdb Hmsg].
  cbn [run]. rewrite Hdb. split; [exact IH1|]. constructor; [exact Hmsg|exact IH2].
Qed.

Lemma reading_changes_nothing_witness :
  run [ (sample_now, Some 1, GET_list (Some "active") None);
        (sample_now, None, POST_delete 1);
        (sample_now, Some 2, GET_delete 1) ] sample_db = sample_db.
Proof.
  refine (proj1 (reading_changes_nothing _ sample_db _)).
  constructor; [right; reflexivity|].
  constructor; [left; reflexivity|].
  constructor; [right; reflexivity|].
  constructor.
Defined.

Lemma change_same_task (who : option user_id) (db db' : DB) (k : Z) (f : TodoFields) :
  change who db db' -> next_id_fresh db -> k < next_id db ->
  (todos db !! k = None
   \/ exists f1, todos db !! k = Some f1 /\ user f1 = user f
                 /\ created_at f1 = created_at f) ->
  (todos db' !! k = None
   \/ exists f1, todos db' !! k = Some f1 /\ user f1 = user f
                 /\ created_at f1 = created_at f).
Proof.
  intros [|u data cleaned now _ _|u k0 f0 data cleaned now _ Hk0 _ _
          |u k0 f0 now _ Hk0 _|u k0 f0 _ Hk0 _] Hfresh Hlt Hk; cbn.
  - exact Hk.
  - now rewrite lookup_insert_ne by lia.
  - destruct (decide (k0 = k)) as [->|Hne]; [|now rewrite lookup_insert_ne].
    rewrite lookup_insert_eq. right.
    destruct Hk as [Hk|(f1 & Hk & Hu & Hc)]; [congruence|].
    exists (updated_row f0 cleaned now). cbn.
    assert (f0 = f1) as -> by congruence. auto.
  - destruct (decide (k0 = k)) as [->|Hne]; [|now rewrite lookup_insert_ne].
    rewrite lookup_insert_eq. right.
    destruct Hk as [Hk|(f1 & Hk & Hu & Hc)]; [congruence|].
    exists (toggled_row f0 now). cbn.
    assert (f0 = f1) as -> by congruence. auto.
  - destruct (decide (k0 = k)) as [->|Hne]; [|now rewrite lookup_delete_ne].
    left. apply lookup_delete_eq.
Qed.

(** X9.  The owner and the creation time of a task never change: whatever
    requests are made, by whomever, the row found later under the key of a
    task has the owner and the [created_at] the task had.  (The next key
    of the table must be free, as it is in every table the handlers
    produce.) *)
Theorem owner_and_creation_time_never_change
    (history : list (datetime * option user_id * request)) (db : DB) (k : Z)
    (f f' : TodoFields) :
  next_id_fresh db ->
  todos db !! k = Some f ->
  todos (run history db) !! k = Some f' ->
  user f' = user f /\ created_at f' = created_at f.
Proof.
  intros Hfresh Hk Hk'.
  assert (H : forall db, next_id_fresh db -> k < next_id db ->
            (todos db !! k = None
             \/ exists f1, todos db !! k = Some f1 /\ user f1 = user f
                           /\ created_at f1 = created_at f) ->
            (todos (run history db) !! k = None
             \/ exists f1, todos (run history db) !! k = Some f1 /\ user f1 = user f
                           /\ created_at f1 = created_at f)).
  { clear. induction history as [|[[now who] req] rest IH]; intros db Hfresh Hlt Hk;
      [exact Hk|].
    cbn [run]. pose proof (dispatch_change now who req db) as Hch. apply IH.
    - eapply change_fresh; eassumption.
    - apply change_next_id in Hch. lia.
    - eapply change_same_task; eassumption. }
  destruct (H db Hfresh (fresh_lookup_lt _ _ _ Hfresh Hk)) as [Hn|(f1 & Hf1 & Hu & Hc)].
  - right. now exists f.
  - congruence.
  - assert (f1 = f') as -> by congruence. now split.
Qed.

Lemma owner_and_creation_time_never_change_witness :
  user (toggled_row sample_row sample_now) = user sample_row
  /\ created_at (toggled_row sample_row sample_now) = created_at sample_row.
Proof.
  exact (owner_and_creation_time_never_change sample_history sample_db 1 sample_row
           (toggled_row sample_row sample_now) sample_db_fresh eq_refl eq_refl).
Defined.

(** ** More on the list view *)

Lemma completed_filters_split (m : gmap Z TodoFields) :
  (size (filter (is_completed false) m) + size (filter (is_completed true) m))%nat
  = size m.
Proof.
  rewrite <- (map_filter_union_complement (is_completed false) m) at 3.
  rewrite map_size_disj_union by apply map_disjoint_filter_complement.
  f_equal. f_equal. apply map_filter_ext. intros k f _.
  unfold is_completed. cbn. destruct (completed f); split; congruence.
Qed.

(** X10.  The statistics of a list page fit together: the total is the sum
    of the active and the completed count, at most the active tasks are
    overdue, the list shows at most [total_count] tasks, and when no
    priority filter applies the list has exactly as many tasks as the count
    that belongs to the chosen status. *)
Theorem list_counts_add_up (now : datetime) (u : user_id)
    (GET_status GET_priority : option string) (db : DB) (ctx : ListContext) :
  get_context_data now u GET_status GET_priority db = inr ctx ->
  total_count ctx = (active_count ctx + completed_count ctx)%nat
  /\ (overdue_count ctx <= active_count ctx)%nat
  /\ (size (ctx_todos ctx) <= total_count ctx)%nat
  /\ (Py.isdigit (priority_filter ctx) = false ->
      size (ctx_todos ctx)
      = if String.eqb (current_filter ctx) "active" then active_count ctx
        else if String.eqb (current_filter ctx) "completed" then completed_count ctx
        else total_count ctx).
Proof.
  rewrite get_context_data_eq. cbv zeta.
  set (user_todos := get_queryset u db).
  set (status := default "all" GET_status).
  set (prio := default EmptyString GET_priority).
  assert (Hstatus : (size (status_queryset status user_todos) <= size user_todos)%nat).
  { unfold status_queryset.
    destruct (String.eqb status "active"); [apply map_size_filter|].
    destruct (String.eqb status "completed"); [apply map_size_filter|lia]. }
  assert (Hoverdue : (count_overdue user_todos (dt_date now)
                      <= size (filter (is_completed false) user_todos))%nat).
  { rewrite count_overdue_size. unfold count_rows.
    apply map_subseteq_size, map_filter_subseteq_ext.
    intros k f _. unfold is_completed, is_overdue. cbn.
    destruct (due_date f); [|discriminate]. now destruct (completed f). }
  intros Hctx.
  assert (Hshape : exists qs,
            ctx = mk_list_context qs (size user_todos)
                    (size (filter (is_completed false) user_todos))
                    (size (filter (is_completed true) user_todos))
                    (count_overdue user_todos (dt_date now)) status prio
            /\ (size qs <= size (status_queryset status user_todos))%nat
            /\ (Py.isdigit prio = false -> qs = status_queryset status user_todos)).
  { destruct (Py.isdigit prio).
    - destruct (py_int prio) as [e|p]; [discriminate|].
      injection Hctx as <-. eexists. split; [reflexivity|].
      split; [apply map_size_filter|discriminate].
    - injection Hctx as <-. eexists. split; [reflexivity|]. split; [lia|reflexivity]. }
  destruct Hshape as (qs & -> & Hqs & Hno). cbn.
  split; [symmetry; apply completed_filters_split|].
  split; [exact Hoverdue|]. split; [lia|].
  intros Hd. rewrite (Hno Hd). unfold status_queryset.
  destruct (String.eqb status "active"); [reflexivity|].
  destruct (String.eqb status "completed"); reflexivity.
Qed.

Lemma list_counts_add_up_witness :
  total_count sample_context_active = (1 + 0)%nat.
Proof.
  refine (proj1 (list_counts_add_up sample_now 1 (Some "active") (Some "3") sample_db
                   sample_context_active _)).
  vm_compute. reflexivity.
Defined.

(** X11.  The two status filters split the list: for one and the same
    priority parameter, the tasks shown under [active] and those shown
    under [completed] have no task in common, and together they are the
    tasks shown under any other status (or none). *)
Theorem status_filters_split_the_list (now : datetime) (u : user_id)
    (GET_status GET_priority : option string) (db : DB)
    (all active finished : ListContext) :
  default "all" GET_status <> "active" ->
  default "all" GET_status <> "completed" ->
  get_context_data now u GET_status GET_priority db = inr all ->
  get_context_data now u (Some "active") GET_priority db = inr active ->
  get_context_data now u (Some "completed") GET_priority db = inr finished ->
  ctx_todos active ##ₘ ctx_todos finished
  /\ ctx_todos active ∪ ctx_todos finished = ctx_todos all
  /\ (size (ctx_todos active) + size (ctx_todos finished))%nat = size (ctx_todos all).
Proof.
  intros Ha Hc. rewrite !get_context_data_eq. cbv zeta.
  set (user_todos := get_queryset u db).
  set (prio := default EmptyString GET_priority).
  assert (Hsq : status_queryset (default "all" GET_status) user_todos = user_todos).
  { unfold status_queryset.
    destruct (String.eqb_spec (default "all" GET_status) "active"); [contradiction|].
    destruct (String.eqb_spec (default "all" GET_status) "completed");
      [contradiction|reflexivity]. }
  rewrite Hsq. cbn [default].
  change (status_queryset "active" user_todos)
    with (filter (is_completed false) user_todos).
  change (status_queryset "completed" user_todos)
    with (filter (is_completed true) user_todos).
  assert (Htrue : filter (is_completed true) user_todos
                  = filter (fun kr => ~ is_completed false kr) user_todos).
  { apply map_filter_ext. intros k f _. unfold is_completed. cbn.
    destruct (completed f); split; congruence. }
  assert (Hsplit : forall (P : Z * TodoFields -> Prop) `{!forall x, Decision (P x)}
                          (qa qc qall : gmap Z TodoFields),
            qa = filter P (filter (is_completed false) user_todos) ->
            qc = filter P (filter (is_completed true) user_todos) ->
            qall = filter P user_todos ->
            qa ##ₘ qc /\ qa ∪ qc = qall /\ (size qa + size qc)%nat = size qall).
  { intros P HP qa qc qall -> -> ->.
    assert (Hdisj : filter P (filter (is_completed false) user_todos)
                    ##ₘ filter P (filter (is_completed true) user_todos)).
    { apply map_disjoint_filter. rewrite Htrue.
      apply map_disjoint_filter_complement. }
    assert (Hunion : filter P (filter (is_completed false) user_todos)
                     ∪ filter P (filter (is_completed true) user_todos)
                     = filter P user_todos).
    { rewrite <- map_filter_union by (rewrite Htrue; apply map_disjoint_filter_complement).
      now rewrite Htrue, map_filter_union_complement. }
    split; [exact Hdisj|]. split; [exact Hunion|].
    now rewrite <- map_size_disj_union, Hunion. }
  destruct (Py.isdigit prio).
  - destruct (py_int prio) as [e|p]; [discriminate|].
    intros [= <-] [= <-] [= <-]. cbn [ctx_todos].
    now apply (Hsplit (has_priority p) _).
  - intros [= <-] [= <-] [= <-]. cbn [ctx_todos].
    destruct (Hsplit (fun _ => True) _
                (filter (is_completed false) user_todos)
                (filter (is_completed true) user_todos) user_todos) as (H1 & H2 & H3);
      try (symmetry; apply map_filter_id; intros; exact I).
    now repeat split.
Qed.

Lemma status_filters_split_the_list_witness :
  ctx_todos sample_context_active ∪ ctx_todos sample_context_completed
  = ctx_todos sample_context_all.
Proof.
  refine (proj1 (proj2 (status_filters_split_the_list sample_now 1 None (Some "3")
                          sample_db sample_context_all sample_context_active
                          sample_context_completed _ _ _ _ _)));
    [discriminate|discriminate|vm_compute; reflexivity..].
Defined.

(** ** Exceptions that leave a view *)



(** * Forms of the accounts *)

(** ** Email addresses *)

Lemma QuerySet_exists_spec {A : Type} `{EqDecision A} (queryset : gmap Z A) :
  QuerySet_exists queryset = true <-> exists k a, queryset !! k = Some a.
Proof.
  unfold QuerySet_exists. rewrite negb_true_iff, bool_decide_eq_false. split.
  - apply map_choose.
  - intros (k & a & Hk) ->. rewrite lookup_empty in Hk. discriminate.
Qed.

Lemma RegisterForm_clean_email_spec (value : string) (users : gmap Z User) :
  (RegisterForm_clean_email value users = inl (ValidationError msg_email_in_use)
   /\ exists k usr, users !! k = Some usr /\ email usr = value)
  \/ (RegisterForm_clean_email value users = inr value
      /\ forall k usr, users !! k = Some usr -> email usr <> value).
Proof.
  unfold RegisterForm_clean_email, raise, ret.
  pose proof (QuerySet_exists_spec (filter (has_email value) users)) as Hex.
  destruct (QuerySet_exists (filter (has_email value) users)).
  - left. split; [reflexivity|].
    destruct (proj1 Hex eq_refl) as (k & usr & Hk).
    apply map_lookup_filter_Some in Hk as [Hk He]. now exists k, usr.
  - right. split; [reflexivity|].
    intros k usr Hk He. enough (false = true) by discriminate.
    apply Hex. exists k, usr. now apply map_lookup_filter_Some.
Qed.

Lemma UserUpdateForm_clean_email_spec (value : string) (instance_pk : Z)
    (users : gmap Z User) :
  (UserUpdateForm_clean_email value instance_pk users
   = inl (ValidationError msg_email_in_use)
   /\ exists k usr, k <> instance_pk /\ users !! k = Some usr /\ email usr = value)
  \/ (UserUpdateForm_clean_email value instance_pk users = inr value
      /\ forall k usr, k <> instance_pk -> users !! k = Some usr -> email usr <> value).
Proof.
  unfold UserUpdateForm_clean_email, raise, ret.
  pose proof (QuerySet_exists_spec
                (filter (not_pk instance_pk) (filter (has_email value) users))) as Hex.
  destruct (QuerySet_exists (filter (not_pk instance_pk) (filter (has_email value) users))).
  - left. split; [reflexivity|].
    destruct (proj1 Hex eq_refl) as (k & usr & Hk).
    apply map_lookup_filter_Some in Hk as [Hk Hne].
    apply map_lookup_filter_Some in Hk as [Hk He]. now exists k, usr.
  - right. split; [reflexivity|].
    intros k usr Hne Hk He. enough (false = true) by discriminate.
    apply Hex. exists k, usr.
    apply map_lookup_filter_Some. split; [|exact Hne].
    now apply map_lookup_filter_Some.
Qed.

(** [RegisterForm.clean_email] refuses an address exactly when some
    account has this very address, and returns an accepted address as it
    is. *)
Lemma RegisterForm_email_taken_iff (value : string) (users : gmap Z User) :
  (RegisterForm_clean_email value users = inl (ValidationError msg_email_in_use)
   <-> exists k usr, users !! k = Some usr /\ email usr = value)
  /\ (RegisterForm_clean_email value users = inr value
      <-> forall k usr, users !! k = Some usr -> email usr <> value).
Proof.
  destruct (RegisterForm_clean_email_spec value users)
    as [[-> (k & usr & Hk & He)]|[-> Hno]].
  - split; split; try discriminate; try reflexivity.
    + intros _. now exists k, usr.
    + intros Hno. exfalso. exact (Hno k usr Hk He).
  - split; split; try discriminate; try reflexivity.
    + intros (k & usr & Hk & He). exfalso. exact (Hno k usr Hk He).
    + intros _. exact Hno.
Qed.

(** X13.  [UserUpdateForm.clean_email] refuses an address exactly when an
    account other than the edited one has it.  So, when addresses are
    unique, a user may submit the address the account already has, which
    the registration form would refuse. *)
Theorem UserUpdateForm_email_taken_iff (value : string) (instance_pk : Z)
    (users : gmap Z User) :
  (UserUpdateForm_clean_email value instance_pk users
   = inl (ValidationError msg_email_in_use)
   <-> exists k usr, k <> instance_pk /\ users !! k = Some usr /\ email usr = value)
  /\ (UserUpdateForm_clean_email value instance_pk users = inr value
      <-> forall k usr, k <> instance_pk -> users !! k = Some usr -> email usr <> value)
  /\ (forall usr, emails_unique users -> users !! instance_pk = Some usr ->
        UserUpdateForm_clean_email (email usr) instance_pk users = inr (email usr)
        /\ RegisterForm_clean_email (email usr) users
           = inl (ValidationError msg_email_in_use)).
Proof.
  split; [|split].
  - destruct (UserUpdateForm_clean_email_spec value instance_pk users)
      as [[-> (k & usr & Hne & Hk & He)]|[-> Hno]].
    + split; [intros _; now exists k, usr|reflexivity].
    + split; [discriminate|].
      intros (k & usr & Hne & Hk & He). exfalso. exact (Hno k usr Hne Hk He).
  - destruct (UserUpdateForm_clean_email_spec value instance_pk users)
      as [[-> (k & usr & Hne & Hk & He)]|[-> Hno]].
    + split; [discriminate|]. intros Hno. exfalso. exact (Hno k usr Hne Hk He).
    + split; [intros _; exact Hno|reflexivity].
  - intros usr Huniq Hk. split.
    + destruct (UserUpdateForm_clean_email_spec (email usr) instance_pk users)
        as [[_ (k & usr' & Hne & Hk' & He)]|[-> _]]; [|reflexivity].
      exfalso. apply Hne. exact (Huniq k instance_pk usr' usr Hk' Hk He).
    + destruct (RegisterForm_clean_email_spec (email usr) users)
        as [[-> _]|[_ Hno]]; [reflexivity|].
      exfalso. exact (Hno instance_pk usr Hk eq_refl).
Qed.

(** X14.  Addresses stay unique: when no two accounts share an address,
    storing a new account whose address [RegisterForm.clean_email]
    accepted, or giving an account an address that
    [UserUpdateForm.clean_email] accepted for it, leaves no two accounts
    with the same address. *)
Theorem accepted_emails_stay_unique (users : gmap Z User) (k : Z)
    (name value : string) :
  emails_unique users ->
  (users !! k = None ->
   accepted (RegisterForm_clean_email value users) ->
   emails_unique (<[k := mk_user name value]> users))
  /\ (accepted (UserUpdateForm_clean_email value k users) ->
      emails_unique (<[k := mk_user name value]> users)).
Proof.
  intros Huniq.
  assert (Hins : (forall k' usr, k' <> k -> users !! k' = Some usr -> email usr <> value) ->
                 emails_unique (<[k := mk_user name value]> users)).
  { intros Hno k1 k2 u1 u2 H1 H2 He.
    destruct (decide (k1 = k)) as [->|Hn1], (decide (k2 = k)) as [->|Hn2];
      [reflexivity|..].
    - rewrite lookup_insert_eq in H1. rewrite lookup_insert_ne in H2 by congruence.
      injection H1 as <-. cbn in He. exfalso. exact (Hno k2 u2 Hn2 H2 (eq_sym He)).
    - rewrite lookup_insert_eq in H2. rewrite lookup_insert_ne in H1 by congruence.
      injection H2 as <-. cbn in He. exfalso. exact (Hno k1 u1 Hn1 H1 He).
    - rewrite lookup_insert_ne in H1, H2 by congruence.
      exact (Huniq k1 k2 u1 u2 H1 H2 He). }
  split.
  - intros Hk [v Hv]. apply Hins. intros k' usr _ Hk'.
    destruct (RegisterForm_clean_email_spec value users) as [[Hr _]|[_ Hno]];
      [congruence|]. now apply (Hno k' usr).
  - intros [v Hv]. apply Hins.
    destruct (UserUpdateForm_clean_email_spec value k users) as [[Hr _]|[_ Hno]];
      [congruence|]. exact Hno.
Qed.

Lemma sample_users_unique : emails_unique sample_users.
Proof.
  intros k1 k2 u1 u2 H1 H2 He. unfold sample_users in *.
  apply lookup_insert_Some in H1 as [[<- <-]|[Hn1 H1]];
    apply lookup_insert_Some in H2 as [[<- <-]|[Hn2 H2]];
    [reflexivity|..].
  - apply lookup_singleton_Some in H2 as [<- <-]. discriminate.
  - apply lookup_singleton_Some in H1 as [<- <-]. discriminate.
  - apply lookup_singleton_Some in H1 as [<- <-].
    apply lookup_singleton_Some in H2 as [<- <-]. reflexivity.
Defined.

Lemma accepted_emails_stay_unique_witness :
  emails_unique (<[3 := mk_user "cy" "cy@example.org"]> sample_users).
Proof.
  refine (proj1 (accepted_emails_stay_unique sample_users 3 "cy" "cy@example.org"
                   sample_users_unique) _ _).
  - vm_compute. reflexivity.
  - eexists. vm_compute. reflexivity.
Defined.

(** ** Profile pictures *)

Lemma split_not_nil (sep : ascii) (s : string) : PyStr.split sep s <> [].
Proof.
  destruct s as [|c s]; cbn; [discriminate|].
  destruct (Ascii.eqb c sep); [discriminate|].
  destruct (PyStr.split sep s); discriminate.
Qed.

Lemma last_item_cons (a : string) (l : list string) :
  l <> [] -> PyStr.last_item (a :: l) = PyStr.last_item l.
Proof. destruct l; [congruence|reflexivity]. Qed.

Lemma split_no_sep (s : string) : no_dot s = true -> PyStr.split "." s = [s].
Proof.
  induction s as [|c s IH]; [reflexivity|]. unfold no_dot in *. cbn.
  destruct (Ascii.eqb c "."); cbn; [discriminate|].
  intros H. now rewrite (IH H).
Qed.

(** The last piece of a name is what follows its last dot. *)
Lemma last_split_app (stem ext : string) :
  no_dot ext = true ->
  PyStr.last_item (PyStr.split "." (stem +:+ String "." ext)) = ext.
Proof.
  intros Hext. induction stem as [|c stem IH].
  - change (PyStr.last_item (EmptyString :: PyStr.split "." ext) = ext).
    rewrite last_item_cons by apply split_not_nil.
    now rewrite split_no_sep.
  - change (String c stem +:+ String "." ext)
      with (String c (stem +:+ String "." ext)).
    cbn [PyStr.split]. destruct (Ascii.eqb c ".").
    + rewrite last_item_cons by apply split_not_nil. exact IH.
    + destruct (PyStr.split "." (stem +:+ String "." ext)) as [|piece pieces] eqn:Hs.
      { now apply split_not_nil in Hs. }
      destruct pieces as [|piece' pieces].
      * exfalso. clear IH. revert piece Hs. induction stem as [|c' stem IH'];
          intros piece Hs.
        -- change (EmptyString :: PyStr.split "." ext = [piece]) in Hs.
           injection Hs as _ Hs. now apply split_not_nil in Hs.
        -- change (String c' stem +:+ String "." ext)
             with (String c' (stem +:+ String "." ext)) in Hs.
           cbn [PyStr.split] in Hs. destruct (Ascii.eqb c' ".").
           ++ injection Hs as _ Hs. now apply split_not_nil in Hs.
           ++ destruct (PyStr.split "." (stem +:+ String "." ext)) as [|p ps] eqn:Hs';
                [now apply split_not_nil in Hs'|].
              injection Hs as _ ->. now apply (IH' p).
      * exact IH.
Qed.

Lemma clean_image_cases (file : ImageFile) :
  Py.truthy (file_name file) = true ->
  clean_image (Some file) =
    if max_image_size <? file_size file
    then inl (ValidationError msg_image_too_large)
    else if bool_decide
              (PyStr.lower (PyStr.last_item (PyStr.split "." (file_name file)))
               ∈ valid_extensions)
         then inr (Some file)
         else inl (ValidationError msg_bad_extension).
Proof. unfold clean_image. now intros ->. Qed.

(** X15.  The size limit of a profile picture comes first and is exactly
    5 MiB: a named file is refused as too large exactly when it has more
    than 5242880 bytes, whatever its name, and a file of 5242880 bytes or
    less is never refused for its size. *)
Theorem image_too_large_iff (file : ImageFile) :
  Py.truthy (file_name file) = true ->
  (clean_image (Some file) = inl (ValidationError msg_image_too_large)
   <-> 5242880 < file_size file)
  /\ (file_size file <= 5242880 ->
      clean_image (Some file) = inr (Some file)
      \/ clean_image (Some file) = inl (ValidationError msg_bad_extension)).
Proof.
  intros Hname. rewrite (clean_image_cases file Hname).
  change max_image_size with 5242880.
  destruct (Z.ltb_spec 5242880 (file_size file)).
  - split; [split; [intros _; assumption|reflexivity]|lia].
  - case_bool_decide.
    + split; [split; [discriminate|lia]|now left].
    + split; [split; [discriminate|lia]|now right].
Qed.

Lemma image_too_large_iff_witness :
  clean_image (Some (mk_image_file "me.png" 5242881))
  = inl (ValidationError msg_image_too_large).
Proof.
  apply (proj1 (image_too_large_iff (mk_image_file "me.png" 5242881) eq_refl)).
  cbn. lia.
Defined.

(** X16.  The extension of a profile picture is what follows the last dot
    of its name, compared without regard to case: a file within the size
    limit named [stem.ext] is accepted exactly when [ext] in lower case is
    one of jpg, jpeg, png, gif, webp; a name without any dot is treated as
    its own extension. *)
Theorem image_extension_rule (stem ext : string) (size : Z) :
  no_dot ext = true -> size <= 5242880 ->
  (clean_image (Some (mk_image_file (stem +:+ String "." ext) size))
   = inr (Some (mk_image_file (stem +:+ String "." ext) size))
   <-> PyStr.lower ext ∈ valid_extensions)
  /\ (Py.truthy ext = true ->
      (clean_image (Some (mk_image_file ext size)) = inr (Some (mk_image_file ext size))
       <-> PyStr.lower ext ∈ valid_extensions)).
Proof.
  intros Hext Hsize.
  assert (Hcase : forall name,
            Py.truthy name = true ->
            PyStr.last_item (PyStr.split "." name) = ext ->
            (clean_image (Some (mk_image_file name size))
             = inr (Some (mk_image_file name size))
             <-> PyStr.lower ext ∈ valid_extensions)).
  { intros name Hname Hlast.
    rewrite (clean_image_cases (mk_image_file name size) Hname).
    cbn [file_name file_size].
    change max_image_size with 5242880.
    destruct (Z.ltb_spec 5242880 size); [lia|].
    rewrite Hlast. case_bool_decide; split; intros; try discriminate;
      try reflexivity; try assumption; contradiction. }
  split.
  - apply Hcase; [|now apply last_split_app].
    destruct stem; reflexivity.
  - intros Hname. apply Hcase; [exact Hname|].
    now rewrite split_no_sep.
Qed.

Lemma image_extension_rule_witness :
  clean_image (Some (mk_image_file "holiday.2024.JPeG" 1000))
  = inr (Some (mk_image_file "holiday.2024.JPeG" 1000)).
Proof.
  apply (proj1 (image_extension_rule "holiday.2024" "JPeG" 1000 eq_refl
                  ltac:(lia))).
  change (PyStr.lower "JPeG") with "jpeg". unfold valid_extensions.
  apply list_elem_of_further, list_elem_of_here.
Defined.

(** * The admin column of the due date *)

Lemma str_of_int_pos_head (n : Z) :
  0 < n ->
  exists c s, PyStr.str_of_int n = String c s /\ Py.is_decimal_char c = true.
Proof.
  destruct n as [|p|p]; try lia. intros _.
  unfold PyStr.str_of_int. cbn [Z.to_int NilZero.string_of_int].
  pose proof (DecimalPos.Unsigned.to_uint_nonnil p) as Hnil.
  destruct (Pos.to_uint p); [contradiction|..];
    cbn; eexists _, _; (split; [reflexivity|reflexivity]).
Qed.

Lemma prefix_overdue_digit (c : ascii) (s t : string) :
  Py.is_decimal_char c = true -> String.prefix "Overdue" (String c s +:+ t) = false.
Proof.
  intros Hc. change (String c s +:+ t) with (String c (s +:+ t)).
  unfold String.prefix.
  destruct (Ascii.ascii_dec "O" c) as [<-|]; [|reflexivity].
  vm_compute in Hc. discriminate.
Qed.

(** X17.  The admin column [Due In] reads [Overdue (n days)] exactly for
    the tasks whose due date is before today, with [n] the number of days
    since the due date.  It does not look at [completed]: every task that
    [is_overdue] is shown as overdue, and a completed task with a past due
    date is shown as overdue too, although [is_overdue] is false for
    it. *)
Theorem admin_shows_overdue_iff_past_due (obj : TodoFields) (today : date) :
  let shown := String.prefix "Overdue" (days_until_due_display obj today) in
  (shown = true <-> exists d, due_date obj = Some d /\ d < today)
  /\ (forall d, due_date obj = Some d -> d < today ->
        days_until_due_display obj today
        = "Overdue (" +:+ PyStr.str_of_int (today - d) +:+ " days)")
  /\ (is_overdue obj today = true -> shown = true)
  /\ (shown = true /\ is_overdue obj today = false
      <-> completed obj = true /\ exists d, due_date obj = Some d /\ d < today).
Proof.
  intros shown.
  assert (Hpast : forall d, due_date obj = Some d -> d < today ->
            days_until_due_display obj today
            = "Overdue (" +:+ PyStr.str_of_int (today - d) +:+ " days)").
  { intros d Hd Hlt. unfold days_until_due_display, days_until_due. rewrite Hd.
    destruct (Z.ltb_spec (d - today) 0); [|lia].
    replace (Z.abs (d - today)) with (today - d) by lia. reflexivity. }
  assert (Hshown : shown = true <-> exists d, due_date obj = Some d /\ d < today).
  { split.
    - subst shown. unfold days_until_due_display, days_until_due.
      destruct (due_date obj) as [d|]; [|discriminate].
      destruct (Z.ltb_spec (d - today) 0); [intros _; exists d; split; [reflexivity|lia]|].
      destruct (Z.eqb_spec (d - today) 0); [discriminate|].
      destruct (str_of_int_pos_head (d - today)) as (c & s & -> & Hc); [lia|].
      now rewrite prefix_overdue_digit.
    - intros (d & Hd & Hlt). subst shown. now rewrite (Hpast d Hd Hlt). }
  split; [exact Hshown|]. split; [exact Hpast|]. split; [|split].
  - intros Ho. apply Hshown. revert Ho. unfold is_overdue.
    destruct (due_date obj) as [d|]; [|discriminate].
    destruct (completed obj); [discriminate|]. cbn.
    intros Ho. exists d. split; [reflexivity|lia].
  - intros [Hs Ho]. apply Hshown in Hs as (d & Hd & Hlt).
    split; [|now exists d]. revert Ho. unfold is_overdue. rewrite Hd.
    destruct (completed obj); [reflexivity|]. cbn. lia.
  - intros [Hc Hex]. split; [now apply Hshown|].
    unfold is_overdue. rewrite Hc. now destruct (due_date obj).
Qed.

(** X18.  The other texts of the column: [No due date] without a due
    date, [Due today] on the day itself, and the number of days followed by
    [days] for every later date, also for one day. *)
Theorem admin_due_in_texts (obj : TodoFields) (today : date) :
  (due_date obj = None <-> days_until_due_display obj today = "No due date")
  /\ (due_date obj = Some today <-> days_until_due_display obj today = "Due today")
  /\ (forall d, due_date obj = Some d -> today < d ->
        days_until_due_display obj today = PyStr.str_of_int (d - today) +:+ " days")
  /\ (due_date obj = Some (today + 1) ->
      days_until_due_display obj today = "1 days").
Proof.
  assert (Hfuture : forall d, due_date obj = Some d -> today < d ->
            days_until_due_display obj today = PyStr.str_of_int (d - today) +:+ " days").
  { intros d Hd Hlt. unfold days_until_due_display, days_until_due. rewrite Hd.
    destruct (Z.ltb_spec (d - today) 0); [lia|].
    destruct (Z.eqb_spec (d - today) 0); [lia|reflexivity]. }
  assert (Hdigit : forall d s, today < d ->
            PyStr.str_of_int (d - today) +:+ " days" = String "N" s
            \/ PyStr.str_of_int (d - today) +:+ " days" = String "D" s -> False).
  { intros d s Hlt H.
    destruct (str_of_int_pos_head (d - today)) as (c & s' & Hs & Hc); [lia|].
    rewrite Hs in H. cbn in H. destruct H as [[= -> _]|[= -> _]]; discriminate. }
  split; [|split; [|split; [exact Hfuture|]]].
  - split; [unfold days_until_due_display, days_until_due; now intros ->|].
    destruct (due_date obj) as [d|] eqn:Hd; [|reflexivity]. intros H. exfalso.
    destruct (Z.lt_trichotomy d today) as [Hlt|[->|Hgt]].
    + revert H. unfold days_until_due_display, days_until_due. rewrite Hd.
      destruct (Z.ltb_spec (d - today) 0); [discriminate|lia].
    + revert H. unfold days_until_due_display, days_until_due. rewrite Hd.
      rewrite Z.sub_diag. discriminate.
    + rewrite (Hfuture d eq_refl Hgt) in H. eapply Hdigit; [exact Hgt|left; exact H].
  - split.
    + unfold days_until_due_display, days_until_due. intros ->.
      rewrite Z.sub_diag. reflexivity.
    + destruct (due_date obj) as [d|] eqn:Hd.
      2:{ unfold days_until_due_display, days_until_due. rewrite Hd. discriminate. }
      intros H. destruct (Z.lt_trichotomy d today) as [Hlt|[->|Hgt]];
        [exfalso|reflexivity|exfalso].
      * revert H. unfold days_until_due_display, days_until_due. rewrite Hd.
        destruct (Z.ltb_spec (d - today) 0); [discriminate|lia].
      * rewrite (Hfuture d eq_refl Hgt) in H. eapply Hdigit; [exact Hgt|right; exact H].
  - intros Hd. rewrite (Hfuture _ Hd) by lia.
    replace (today + 1 - today) with 1 by lia. reflexivity.
Qed.

(** * Saving and looking up *)

(** X19.  What [Todo.save] stores can be fetched again: after a save of an
    instance that has an owner, the instance has a key, and the lookup of
    that key for the owner ([get_object_or_404] as well as [get_object] on
    the owner's query set) returns the instance exactly as [save] left it;
    for any other user the same lookup raises [Http404]. *)
Theorem saved_todo_is_found_again (self saved : Todo) (now : datetime) (db db' : DB)
    (u v : user_id) :
  user self = Some u -> v <> u ->
  Todo_save self now db = inr (saved, db') ->
  exists k, pk saved = Some k
    /\ get_object_or_404 db' k u = inr saved
    /\ get_object (get_queryset u db') k = inr saved
    /\ get_object_or_404 db' k v = inl Http404
    /\ updated_at saved = Some now
    /\ user saved = Some u.
Proof.
  intros Hu Hvu Hsave.
  rewrite Todo_save_owned in Hsave by (now rewrite Hu).
  injection Hsave as Hsave. unfold Model_save in Hsave.
  assert (Hfind : forall k f,
            user f = Some u ->
            get_object_or_404 (mk_db (<[k := f]> (todos db)) (next_id db')) k u
            = inr (mk_todo (Some k) f)
            /\ get_object_or_404 (mk_db (<[k := f]> (todos db)) (next_id db')) k v
               = inl Http404).
  { intros k f Hf. rewrite !get_object_or_404_eq. split.
    - apply get_object_Some, get_queryset_lookup. cbn.
      split; [apply lookup_insert_eq|exact Hf].
    - apply get_object_None, get_queryset_lookup_None. cbn.
      intros f'. rewrite lookup_insert_eq. intros [= <-]. congruence. }
  destruct (pk self) as [k|].
  - destruct (todos db !! k); injection Hsave as <- <-; cbn [next_id] in Hfind;
      exists k; (split; [reflexivity|]);
      match goal with |- get_object_or_404 (mk_db (<[k := ?f]> _) _) _ _ = _ /\ _ =>
        destruct (Hfind k f) as [H1 H2]; [exact Hu|] end;
      rewrite <- get_object_or_404_eq; auto.
  - injection Hsave as <- <-. cbn [next_id] in Hfind. exists (next_id db).
    split; [reflexivity|].
    match goal with |- get_object_or_404 (mk_db (<[_ := ?f]> _) _) _ _ = _ /\ _ =>
      destruct (Hfind (next_id db) f) as [H1 H2]; [exact Hu|] end.
    rewrite <- get_object_or_404_eq. auto.
Qed.

Lemma saved_todo_is_found_again_witness :
  exists k, pk (Model_save (mk_todo None sample_row) sample_now sample_db).1 = Some k
    /\ get_object_or_404 (Model_save (mk_todo None sample_row) sample_now sample_db).2 k 1
       = inr (Model_save (mk_todo None sample_row) sample_now sample_db).1.
Proof.
  destruct (saved_todo_is_found_again (mk_todo None sample_row)
              (Model_save (mk_todo None sample_row) sample_now sample_db).1
              sample_now sample_db
              (Model_save (mk_todo None sample_row) sample_now sample_db).2
              1 2 eq_refl ltac:(discriminate) eq_refl) as (k & Hk & Hg & _).
  exists k. split; [exact Hk|exact Hg].
Defined.
